(** * Vestra II: the stock-analysis persistence layer

    A shallow embedding of [scripts/stock-analysis/database.py]
    ([DatabaseManager.upsert_stock_data] and
    [DatabaseManager.write_analysis_to_database]) and the properties of
    its replace-on-write persistence and of its batch driver.

    Python values are a small inductive universe; the code runs in a monad
    that threads the world (the remote store, the requests sent to it, the
    standard output) and carries Python exceptions.  An exception does not
    undo the effects that happened before it. *)

From Stdlib Require Import ZArith List String Bool Lia.
From Stdlib Require Import PrimFloat SpecFloat FloatOps.
From ExtLib Require Import Structures.Monad Structures.MonadExc.
Import ListNotations.
Import MonadNotation.

Set Warnings "-register-all".

Local Open Scope string_scope.
Local Open Scope Z_scope.
Local Open Scope monad_scope.

(* ===================================================================== *)
(** ** Python values and exceptions *)
(* ===================================================================== *)

(** The values a stock record is made of.  Dictionaries are keyed by
    strings, as JSON-like records and pandas rows are; the first binding of
    a key is the one that counts.  A string is a sequence of one-byte
    characters. *)
Inductive value : Type :=
| VNone
| VBool (b : bool)
| VInt (z : Z)
| VFloat (f : float)
| VStr (s : string)
| VList (l : list value)
| VDict (d : list (string * value)).

Definition dict : Type := list (string * value).

(** The subclasses of [Exception] the code can meet.  [ClientError] stands
    for whatever the database client raises. *)
Inductive exn : Type :=
| KeyError (key : value)
| TypeError
| ValueError
| IndexError
| OverflowError
| AttributeError
| ClientError (msg : string).

Inductive result (A : Type) : Type :=
| Ok (a : A)
| Raise (e : exn).
Arguments Ok {A} a.
Arguments Raise {A} e.

#[global] Instance Monad_result : Monad result :=
  {| ret := fun _ a => Ok a;
     bind := fun _ _ c k => match c with Ok a => k a | Raise e => Raise e end |}.

#[global] Instance Exc_result : MonadExc exn result :=
  {| raise := fun _ e => Raise e;
     catch := fun _ c h => match c with Ok a => Ok a | Raise e => h e end |}.

(** [for x in xs] over a computation that may raise: it stops at the first
    exception. *)
Fixpoint mapM {m : Type -> Type} {Mo : Monad m} {A B : Type}
    (f : A -> m B) (xs : list A) : m (list B) :=
  match xs with
  | [] => ret []
  | x :: rest => y <- f x ;; ys <- mapM f rest ;; ret (y :: ys)
  end.

(* ===================================================================== *)
(** ** The Python primitives the module uses *)
(* ===================================================================== *)

Module Py.

(** [d.get(k)] on the bindings of a dictionary. *)
Fixpoint lookup (k : string) (d : dict) : option value :=
  match d with
  | [] => None
  | (k', v) :: rest => if String.eqb k k' then Some v else lookup k rest
  end.

(** Truth value of an object, as [if x:] tests it. *)
Definition truthy (v : value) : bool :=
  match v with
  | VNone => false
  | VBool b => b
  | VInt z => negb (z =? 0)
  | VFloat f => negb (PrimFloat.eqb f zero)
  | VStr s => negb (String.eqb s "")
  | VList l => match l with [] => false | _ => true end
  | VDict d => match d with [] => false | _ => true end
  end.

(** [x.get(k, default)]: only dictionaries (and pandas rows, modelled as
    dictionaries) have the method. *)
Definition get (x : value) (k : string) (default : value) : result value :=
  match x with
  | VDict d => match lookup k d with Some v => Ok v | None => Ok default end
  | _ => Raise AttributeError
  end.

Definition nth_item (l : list value) (i : Z) : result value :=
  let n := Z.of_nat (List.length l) in
  let j := if i <? 0 then i + n else i in
  if (j <? 0) || (n <=? j) then Raise IndexError
  else match nth_error l (Z.to_nat j) with
       | Some v => Ok v
       | None => Raise IndexError
       end.

Definition chars (s : string) : list value :=
  map (fun c => VStr (String c EmptyString)) (list_ascii_of_string s).

(** [x[k]]. *)
Definition subscript (x k : value) : result value :=
  match x with
  | VDict d =>
      match k with
      | VStr s => match lookup s d with Some v => Ok v | None => Raise (KeyError k) end
      | VList _ | VDict _ => Raise TypeError          (* unhashable key *)
      | _ => Raise (KeyError k)
      end
  | VList l =>
      match k with
      | VInt i => nth_item l i
      | VBool b => nth_item l (if b then 1 else 0)
      | _ => Raise TypeError
      end
  | VStr s =>
      match k with
      | VInt i => nth_item (chars s) i
      | VBool b => nth_item (chars s) (if b then 1 else 0)
      | _ => Raise TypeError
      end
  | _ => Raise TypeError                               (* not subscriptable *)
  end.

(** [len(x)]. *)
Definition len (x : value) : result Z :=
  match x with
  | VList l => Ok (Z.of_nat (List.length l))
  | VDict d => Ok (Z.of_nat (List.length d))
  | VStr s => Ok (Z.of_nat (String.length s))
  | _ => Raise TypeError
  end.

(** The items [for y in x] goes through. *)
Definition iter (x : value) : result (list value) :=
  match x with
  | VList l => Ok l
  | VDict d => Ok (map (fun kv => VStr (fst kv)) d)
  | VStr s => Ok (chars s)
  | _ => Raise TypeError
  end.

(** [range(n)]. *)
Definition range (n : Z) : list Z :=
  map Z.of_nat (seq 0 (Z.to_nat n)).

(** The binary64 number nearest to an integer. *)
Definition float_of_Z (z : Z) : float :=
  SF2Prim (binary_normalize prec emax z 0 false).

(** Parsing of numerals is the interpreter's; it is a parameter of the
    primitives below. *)
Record numerals : Type := {
  float_of_string : string -> option float;
  int_of_string : string -> option Z
}.

Section Coercions.
Variable num : numerals.

(** [float(x)]. *)
Definition float (x : value) : result value :=
  match x with
  | VBool b => Ok (VFloat (if b then one else zero))
  | VInt z =>
      let f := float_of_Z z in
      if is_infinity f then Raise OverflowError else Ok (VFloat f)
  | VFloat f => Ok (VFloat f)
  | VStr s =>
      match float_of_string num s with
      | Some f => Ok (VFloat f)
      | None => Raise ValueError
      end
  | VNone | VList _ | VDict _ => Raise TypeError
  end.

(** [int(x)]: truncation towards zero on floats. *)
Definition int (x : value) : result value :=
  match x with
  | VBool b => Ok (VInt (if b then 1 else 0))
  | VInt z => Ok (VInt z)
  | VFloat f =>
      match Prim2SF f with
      | S754_nan => Raise ValueError
      | S754_infinity _ => Raise OverflowError
      | S754_zero _ => Ok (VInt 0)
      | S754_finite s m e =>
          let mag := Z.shiftl (Zpos m) e in
          Ok (VInt (if s then - mag else mag))
      end
  | VStr s =>
      match int_of_string num s with
      | Some z => Ok (VInt z)
      | None => Raise ValueError
      end
  | VNone | VList _ | VDict _ => Raise TypeError
  end.
End Coercions.

(** [x + 1]. *)
Definition add_one (x : value) : result value :=
  match x with
  | VInt z => Ok (VInt (z + 1))
  | VBool b => Ok (VInt ((if b then 1 else 0) + 1))
  | VFloat f => Ok (VFloat (f + one)%float)
  | _ => Raise TypeError
  end.

End Py.


(* ===================================================================== *)
(** ** The world: the remote store, the requests sent to it, standard output *)
(* ===================================================================== *)

Definition row : Type := dict.

(** The three tables of the schema ([_create_tables]). *)
Record db : Type := {
  stocks : list row;
  stock_prices : list row;
  stock_predictions : list row
}.

(** What [.execute()] sends: [table(t).delete().eq(c, v)] or
    [table(t).insert(payload)].  Building a request ([table], [delete],
    [insert], [eq]) sends nothing and raises nothing; only [execute] reaches
    the service. *)
Inductive request : Type :=
| Delete (table column : string) (val : value)
| Insert (table : string) (payload : value).

(** The lines the module prints. *)
Inductive event : Type :=
| UpsertError (ticker : value) (e : exn)
| ProcessingError (ticker : value) (e : exn)
| Summary (success_count error_count : Z).

Record world : Type := {
  store : db;
  issued : list request;
  stdout : list event;
  ticks : nat
}.

(** What lies outside the module: the interpreter's numerals, the database
    client (any function of the requests sent so far, the request and the
    store: it answers with the new store and, when it raises, the
    exception), and the clock behind [datetime.now().isoformat()]. *)
Record env : Type := {
  numerals_of : Py.numerals;
  client : list request -> request -> db -> db * option exn;
  clock : nat -> string
}.

(** Computations: a world in, a value or an exception and a world out. *)
Definition M (A : Type) : Type := world -> result A * world.

#[global] Instance Monad_M : Monad M :=
  {| ret := fun _ a w => (Ok a, w);
     bind := fun _ _ c k w =>
       match c w with
       | (Ok a, w') => k a w'
       | (Raise e, w') => (Raise e, w')
       end |}.

(** [try: c  except Exception as e: h e]. *)
#[global] Instance Exc_M : MonadExc exn M :=
  {| raise := fun _ e w => (Raise e, w);
     catch := fun _ c h w =>
       match c w with
       | (Ok a, w') => (Ok a, w')
       | (Raise e, w') => h e w'
       end |}.

(** A pure expression, evaluated in place. *)
Definition lift {A : Type} (r : result A) : M A := fun w => (r, w).

Definition print (ev : event) : M unit := fun w =>
  (Ok tt, {| store := store w; issued := issued w;
             stdout := stdout w ++ [ev]; ticks := ticks w |}).

Section DatabaseManager.

Variable E : env.

Definition datetime_now_isoformat : M value := fun w =>
  (Ok (VStr (clock E (ticks w))),
   {| store := store w; issued := issued w;
      stdout := stdout w; ticks := S (ticks w) |}).

(** [.execute()]: the request reaches the client, which answers or raises. *)
Definition execute (r : request) : M unit := fun w =>
  let (s', out) := client E (issued w) r (store w) in
  let w' := {| store := s'; issued := issued w ++ [r];
               stdout := stdout w; ticks := ticks w |} in
  match out with
  | None => (Ok tt, w')
  | Some e => (Raise e, w')
  end.

Definition float_ (x : value) : result value := Py.float (numerals_of E) x.
Definition int_ (x : value) : result value := Py.int (numerals_of E) x.

(** *** [upsert_stock_data], lines 18-29: the fields of [stock] read from
    the record, in the order the dictionary display evaluates them *)
Definition prepare_stock (stock_data : value) : result dict :=
  ticker <- Py.subscript stock_data (VStr "ticker") ;;
  name <- Py.subscript stock_data (VStr "name") ;;
  score <- (x <- Py.get stock_data "sentiment_score" (VInt 0) ;; float_ x) ;;
  category <- Py.get stock_data "sentiment_category" (VStr "Neutral") ;;
  s_inv <- (x <- Py.get stock_data "investment_score" (VInt 0) ;; float_ x) ;;
  news_count <- (x <- Py.get stock_data "news_count" (VInt 0) ;; int_ x) ;;
  rank <- (x <- Py.get stock_data "rank" (VInt 0) ;; int_ x) ;;
  inv <- (x <- Py.get stock_data "investment_score" (VInt 0) ;; float_ x) ;;
  ret [("ticker", ticker);
       ("name", name);
       ("sentiment", VDict [("score", score);
                            ("category", category);
                            ("investment_score", s_inv)]);
       ("news_count", news_count);
       ("rank", rank);
       ("investment_score", inv)].

(** Lines 18-30: the dictionary [stock], with its time stamp. *)
Definition build_stock (stock_data : value) : M value :=
  fields <- lift (prepare_stock stock_data) ;;
  now <- datetime_now_isoformat ;;
  ret (VDict (fields ++ [("last_updated", now)])).

(** Lines 32-36: the row of [stocks] is replaced.  The arguments of [eq]
    are evaluated before [eq] and [execute] are called. *)
Definition replace_stock (stock : value) : M unit :=
  id <- lift (Py.subscript stock (VStr "id")) ;;
  execute (Delete "stocks" "id" id) ;;
  execute (Insert "stocks" stock).

(** Lines 41-48: one row per price point. *)
Definition price_row (stock_data price : value) : result value :=
  ticker <- Py.subscript stock_data (VStr "ticker") ;;
  date <- Py.subscript price (VStr "date") ;;
  p <- (x <- Py.subscript price (VStr "price") ;; float_ x) ;;
  ret (VDict [("ticker", ticker); ("date", date); ("price", p)]).

(** Lines 41-48: the comprehension over [stock_data['historical_data']]. *)
Definition price_rows (stock_data : value) : result (list value) :=
  series <- Py.subscript stock_data (VStr "historical_data") ;;
  items <- Py.iter series ;;
  mapM (price_row stock_data) items.

(** Lines 38-55: historical prices. *)
Definition handle_historical_prices (stock_data : value) : M unit :=
  h <- lift (Py.get stock_data "historical_data" VNone) ;;
  if Py.truthy h then
    historical_data <- lift (price_rows stock_data) ;;
    ticker <- lift (Py.subscript stock_data (VStr "ticker")) ;;
    execute (Delete "stock_prices" "ticker" ticker) ;;
    if Py.truthy (VList historical_data)
    then execute (Insert "stock_prices" (VList historical_data))
    else ret tt
  else ret tt.

(** Lines 62-63: [prediction[bound][i] if prediction.get(bound) else None]. *)
Definition bound_at (stock_data : value) (bound : string) (i : Z) : result value :=
  c <- (p <- Py.subscript stock_data (VStr "prediction") ;; Py.get p bound VNone) ;;
  if Py.truthy c then
    p <- Py.subscript stock_data (VStr "prediction") ;;
    b <- Py.subscript p (VStr bound) ;;
    Py.subscript b (VInt i)
  else ret VNone.

(** Lines 69-70: [float(b['price']) if b else None]. *)
Definition bound_price (b : value) : result value :=
  if Py.truthy b then x <- Py.subscript b (VStr "price") ;; float_ x
  else ret VNone.

(** Lines 61-71: the body of the loop over [range(len(data))]. *)
Definition prediction_row (stock_data : value) (i : Z) : result value :=
  pred_data <- (p <- Py.subscript stock_data (VStr "prediction") ;;
                d <- Py.subscript p (VStr "data") ;;
                Py.subscript d (VInt i)) ;;
  upper <- bound_at stock_data "upper_bound" i ;;
  lower <- bound_at stock_data "lower_bound" i ;;
  ticker <- Py.subscript stock_data (VStr "ticker") ;;
  date <- Py.subscript pred_data (VStr "date") ;;
  p <- (x <- Py.subscript pred_data (VStr "price") ;; float_ x) ;;
  ub <- bound_price upper ;;
  lb <- bound_price lower ;;
  ret (VDict [("ticker", ticker); ("date", date); ("price", p);
              ("upper_bound", ub); ("lower_bound", lb)]).

(** Line 58: [stock_data.get('prediction') and
    stock_data['prediction'].get('data')]. *)
Definition has_predictions (stock_data : value) : result bool :=
  p <- Py.get stock_data "prediction" VNone ;;
  if Py.truthy p then
    p' <- Py.subscript stock_data (VStr "prediction") ;;
    d <- Py.get p' "data" VNone ;;
    ret (Py.truthy d)
  else ret false.

(** Lines 59-71: the loop that fills [predictions]. *)
Definition prediction_rows (stock_data : value) : result (list value) :=
  n <- (p <- Py.subscript stock_data (VStr "prediction") ;;
        d <- Py.subscript p (VStr "data") ;;
        Py.len d) ;;
  mapM (prediction_row stock_data) (Py.range n).

(** Lines 57-78: predictions. *)
Definition handle_predictions (stock_data : value) : M unit :=
  c <- lift (has_predictions stock_data) ;;
  if (c : bool) then
    predictions <- lift (prediction_rows stock_data) ;;
    ticker <- lift (Py.subscript stock_data (VStr "ticker")) ;;
    execute (Delete "stock_predictions" "ticker" ticker) ;;
    if Py.truthy (VList predictions)
    then execute (Insert "stock_predictions" (VList predictions))
    else ret tt
  else ret tt.

(** Lines 17-80: the body of the [try]. *)
Definition upsert_body (stock_data : value) : M value :=
  stock <- build_stock stock_data ;;
  replace_stock stock ;;
  handle_historical_prices stock_data ;;
  handle_predictions stock_data ;;
  ret (VBool true).

(** Lines 82-84: the handler prints and answers [False]. *)
Definition upsert_handler (stock_data : value) (e : exn) : M value :=
  ticker <- lift (Py.get stock_data "ticker" (VStr "unknown")) ;;
  print (UpsertError ticker e) ;;
  ret (VBool false).

Definition upsert_stock_data (stock_data : value) : M value :=
  catch (upsert_body stock_data) (upsert_handler stock_data).

End DatabaseManager.

(** *** [write_analysis_to_database]

    [ranked_stocks.iterrows()] yields the index label and the row of each
    record; a row answers [row[k]] and [row.get(k, d)] as a dictionary of
    its cells does.  The method called on each record is looked up on
    [self]; the driver is written over it. *)
Definition dataframe : Type := list (value * dict).

Section Driver.

Variable E : env.
Variable self_upsert_stock_data : value -> M value.

(** Lines 178-192: the record handed to the persistence routine. *)
Definition make_stock_data (idx stock : value) : result value :=
  ticker <- Py.subscript stock (VStr "ticker") ;;
  name <- Py.subscript stock (VStr "name") ;;
  score <- (x <- Py.get stock "avg_sentiment" (VInt 0) ;; float_ E x) ;;
  category <- Py.get stock "sentiment_category" (VStr "Neutral") ;;
  inv <- (x <- Py.get stock "investment_score" (VInt 0) ;; float_ E x) ;;
  news_count <- (x <- Py.get stock "news_count" (VInt 0) ;; int_ E x) ;;
  rank <- Py.add_one idx ;;
  historical_data <- Py.get stock "historical_data" (VList []) ;;
  prediction <- Py.get stock "prediction"
                  (VDict [("data", VList []);
                          ("upper_bound", VList []);
                          ("lower_bound", VList [])]) ;;
  ret (VDict [("ticker", ticker);
              ("name", name);
              ("sentiment_score", score);
              ("sentiment_category", category);
              ("investment_score", inv);
              ("news_count", news_count);
              ("rank", rank);
              ("historical_data", historical_data);
              ("prediction", prediction)]).

(** Lines 177-197, the body of the [try]: does the record count as a
    success? *)
Definition process_record (idx stock : value) : M bool :=
  stock_data <- lift (make_stock_data idx stock) ;;
  r <- self_upsert_stock_data stock_data ;;
  ret (Py.truthy r).

(** Lines 199-201: the handler prints and the record counts as an error. *)
Definition processing_handler (stock : value) (e : exn) : M unit :=
  ticker <- lift (Py.get stock "ticker" (VStr "unknown")) ;;
  print (ProcessingError ticker e).

(** One turn of the loop on the counters
    [(success_count, error_count)]. *)
Definition iteration (idx stock : value) (counts : Z * Z) : M (Z * Z) :=
  catch (ok <- process_record idx stock ;;
         ret (if (ok : bool) then (fst counts + 1, snd counts)
              else (fst counts, snd counts + 1)))
        (fun e => processing_handler stock e ;;
                  ret (fst counts, snd counts + 1)).

Fixpoint iterrows_loop (rows : dataframe) (counts : Z * Z) : M (Z * Z) :=
  match rows with
  | [] => ret counts
  | (idx, stock) :: rest =>
      counts' <- iteration idx (VDict stock) counts ;;
      iterrows_loop rest counts'
  end.

(** Lines 170-207. *)
Definition write_analysis (ranked_stocks : dataframe) : M (Z * Z) :=
  counts <- iterrows_loop ranked_stocks (0, 0) ;;
  print (Summary (fst counts) (snd counts)) ;;
  ret counts.

End Driver.

(** The method as the class has it: [self.upsert_stock_data] is
    [upsert_stock_data]. *)
Definition write_analysis_to_database (E : env) (ranked_stocks : dataframe)
  : M (Z * Z) :=
  write_analysis E (upsert_stock_data E) ranked_stocks.

(* ===================================================================== *)
(** ** A reference database service *)
(* ===================================================================== *)

(** The service behind the client, as far as the module relies on it: a
    delete removes the rows whose column equals the value, an insert adds
    the rows of its payload.  Constraints of the schema are not modelled. *)
Module Sql.

Definition scalar_eqb (a b : value) : bool :=
  match a, b with
  | VNone, VNone => true
  | VBool x, VBool y => Bool.eqb x y
  | VInt x, VInt y => x =? y
  | VFloat x, VFloat y => PrimFloat.eqb x y
  | VStr x, VStr y => String.eqb x y
  | _, _ => false
  end.

Definition selects (column : string) (v : value) (r : row) : bool :=
  match Py.lookup column r with
  | Some x => scalar_eqb x v
  | None => false
  end.

Definition table_of (t : string) (s : db) : option (list row) :=
  if String.eqb t "stocks" then Some (stocks s)
  else if String.eqb t "stock_prices" then Some (stock_prices s)
  else if String.eqb t "stock_predictions" then Some (stock_predictions s)
  else None.

Definition with_table (t : string) (rows : list row) (s : db) : db :=
  if String.eqb t "stocks" then
    {| stocks := rows; stock_prices := stock_prices s;
       stock_predictions := stock_predictions s |}
  else if String.eqb t "stock_prices" then
    {| stocks := stocks s; stock_prices := rows;
       stock_predictions := stock_predictions s |}
  else if String.eqb t "stock_predictions" then
    {| stocks := stocks s; stock_prices := stock_prices s;
       stock_predictions := rows |}
  else s.

Fixpoint as_rows (l : list value) : option (list row) :=
  match l with
  | [] => Some []
  | VDict d :: rest =>
      match as_rows rest with Some rs => Some (d :: rs) | None => None end
  | _ :: _ => None
  end.

Definition rows_of (payload : value) : option (list row) :=
  match payload with
  | VDict d => Some [d]
  | VList l => as_rows l
  | _ => None
  end.

Definition apply (r : request) (s : db) : option db :=
  match r with
  | Delete t c v =>
      match table_of t s with
      | Some rows =>
          Some (with_table t (filter (fun x => negb (selects c v x)) rows) s)
      | None => None
      end
  | Insert t payload =>
      match table_of t s, rows_of payload with
      | Some rows, Some new => Some (with_table t (rows ++ new) s)
      | _, _ => None
      end
  end.

(** A service that never fails on a well-formed request. *)
Definition service (_ : list request) (r : request) (s : db)
  : db * option exn :=
  match apply r s with
  | Some s' => (s', None)
  | None => (s, Some (ClientError "rejected"))
  end.

(** A service whose inserts fail and leave the store as it was. *)
Definition failing_inserts (h : list request) (r : request) (s : db)
  : db * option exn :=
  match r with
  | Insert _ _ => (s, Some (ClientError "insert failed"))
  | Delete _ _ _ => service h r s
  end.

(** The rows of a table that belong to a ticker. *)
Definition rows_for (ticker : value) (rows : list row) : list row :=
  filter (selects "ticker" ticker) rows.

End Sql.

(* ===================================================================== *)
(** ** The schema: [_create_tables] and [_ensure_tables_exist] *)
(* ===================================================================== *)

(** [str.lower()] and [needle in text] on one-byte characters. *)
Module Text.

Definition lower_char (c : Ascii.ascii) : Ascii.ascii :=
  let n := Ascii.nat_of_ascii c in
  if andb (Nat.leb 65 n) (Nat.leb n 90) then Ascii.ascii_of_nat (n + 32)
  else c.

Fixpoint lower (s : string) : string :=
  match s with
  | EmptyString => EmptyString
  | String c rest => String (lower_char c) (lower rest)
  end.

Fixpoint contains (needle text : string) : bool :=
  String.prefix needle text ||
  match text with
  | EmptyString => false
  | String _ rest => contains needle rest
  end.

End Text.

Module Admin.

(** The statements of [_create_tables], by what they say: the text of a
    statement is handed to the client as it is and never read by the
    module. *)
Record column : Type := {
  column_name : string;
  column_type : string;
  not_null : bool;
  default : option string
}.

Record table_decl : Type := {
  table : string;
  columns : list column;
  primary_key : list string
}.

Inductive statement : Type :=
| CreateTable (t : table_decl)
| EnableRls (table : string)
| CreatePolicy (name table action : string)
    (using_clause check_clause : option string).

Definition col (name type : string) : column :=
  {| column_name := name; column_type := type;
     not_null := false; default := None |}.

Definition key_col (name type : string) : column :=
  {| column_name := name; column_type := type;
     not_null := true; default := None |}.

Definition is_public : column :=
  {| column_name := "is_public"; column_type := "boolean";
     not_null := false; default := Some "true" |}.

(** Lines 99-113. *)
Definition stocks_table : table_decl :=
  {| table := "stocks";
     columns := [key_col "ticker" "text";
                 col "name" "text";
                 col "sentiment_score" "float8";
                 col "sentiment_category" "text";
                 col "sentiment" "jsonb";
                 col "news_count" "integer";
                 col "rank" "integer";
                 col "investment_score" "float8";
                 col "last_updated" "timestamp with time zone";
                 is_public];
     primary_key := ["ticker"] |}.

(** Lines 116-124. *)
Definition stock_prices_table : table_decl :=
  {| table := "stock_prices";
     columns := [key_col "ticker" "text";
                 key_col "date" "date";
                 col "price" "float8";
                 is_public];
     primary_key := ["ticker"; "date"] |}.

(** Lines 127-137. *)
Definition stock_predictions_table : table_decl :=
  {| table := "stock_predictions";
     columns := [key_col "ticker" "text";
                 key_col "date" "date";
                 col "price" "float8";
                 col "upper_bound" "float8";
                 col "lower_bound" "float8";
                 is_public];
     primary_key := ["ticker"; "date"] |}.

Definition tables : list statement :=
  [CreateTable stocks_table;
   CreateTable stock_prices_table;
   CreateTable stock_predictions_table].

(** Lines 140-157. *)
Definition policies : list statement :=
  [EnableRls "stocks";
   EnableRls "stock_prices";
   EnableRls "stock_predictions";
   CreatePolicy "Public stocks are viewable by everyone" "stocks" "select"
     (Some "is_public = true") None;
   CreatePolicy "Authenticated users can insert public stocks" "stocks"
     "insert" None (Some "is_public = true");
   CreatePolicy "Authenticated users can update public stocks" "stocks"
     "update" (Some "is_public = true") (Some "is_public = true");
   CreatePolicy "Authenticated users can delete public stocks" "stocks"
     "delete" (Some "is_public = true") None].

Definition column_names (t : table_decl) : list string :=
  map column_name (columns t).

(** What reaches the client: [table(t).select(c).limit(n).execute()] and
    [query(statement).execute()]. *)
Inductive call : Type :=
| Select (table columns : string) (limit : Z)
| Query (s : statement).

(** The lines the two functions print. *)
Inductive notice : Type :=
| PolicyWarning (msg : string)
| CreateError (msg : string).

Record console : Type := {
  calls : list call;
  lines : list notice
}.

(** An exception is known to the two functions by its text [str(e)] only. *)
Inductive outcome (T : Type) : Type :=
| Done (x : T)
| Raised (msg : string).
Arguments Done {T} x.
Arguments Raised {T} msg.

Definition A (T : Type) : Type := console -> outcome T * console.

#[global] Instance Monad_A : Monad A :=
  {| ret := fun _ x w => (Done x, w);
     bind := fun _ _ c k w =>
       match c w with
       | (Done x, w') => k x w'
       | (Raised msg, w') => (Raised msg, w')
       end |}.

#[global] Instance Exc_A : MonadExc string A :=
  {| raise := fun _ msg w => (Raised msg, w);
     catch := fun _ c h w =>
       match c w with
       | (Done x, w') => (Done x, w')
       | (Raised msg, w') => h msg w'
       end |}.

Definition print (n : notice) : A unit := fun w =>
  (Done tt, {| calls := calls w; lines := (lines w ++ [n])%list |}).

(** [for x in xs: f x]. *)
Fixpoint for_each {T : Type} (f : T -> A unit) (xs : list T) : A unit :=
  match xs with
  | [] => ret tt
  | x :: rest => f x ;; for_each f rest
  end.

Section Manager.

(** The client: given the calls made so far and the call, it answers or
    raises an exception with the given text. *)
Variable client : list call -> call -> option string.

Definition execute (c : call) : A unit := fun w =>
  let w' := {| calls := (calls w ++ [c])%list; lines := lines w |} in
  match client (calls w) c with
  | None => (Done tt, w')
  | Some msg => (Raised msg, w')
  end.

(** Lines 159-164: one policy; a failure is printed unless its text says
    the policy is already there, and goes no further. *)
Definition create_policy (policy : statement) : A unit :=
  catch (execute (Query policy))
        (fun msg =>
           if negb (Text.contains "already exists" (Text.lower msg))
           then print (PolicyWarning msg)
           else ret tt).

(** Lines 95-168. *)
Definition _create_tables : A unit :=
  catch (execute (Query (CreateTable stocks_table)) ;;
         execute (Query (CreateTable stock_prices_table)) ;;
         execute (Query (CreateTable stock_predictions_table)) ;;
         for_each create_policy policies)
        (fun msg => print (CreateError msg) ;; raise msg).

(** Lines 86-93. *)
Definition _ensure_tables_exist : A unit :=
  catch (execute (Select "stocks" "*" 1))
        (fun msg =>
           if Text.contains "does not exist" (Text.lower msg)
           then _create_tables
           else ret tt).

End Manager.

(** A client for the examples: the tables are missing, every statement
    is accepted but the policies, which are there already. *)
Definition fresh_schema_client (_ : list call) (c : call) : option string :=
  match c with
  | Select _ _ _ => Some "relation public.stocks Does Not Exist"
  | Query (CreatePolicy _ _ _ _ _) => Some "policy Already Exists"
  | Query _ => None
  end.

(** A client that is out of reach. *)
Definition unreachable_client (_ : list call) (_ : call) : option string :=
  Some "connection refused".

(** A client that finds no table and may not create one. *)
Definition read_only_client (_ : list call) (c : call) : option string :=
  match c with
  | Select _ _ _ => Some "relation public.stocks does not exist"
  | Query _ => Some "permission denied"
  end.

Definition console0 : console := {| calls := []; lines := [] |}.

End Admin.

(* ===================================================================== *)
(** ** Vocabulary of the statements *)
(* ===================================================================== *)

(** The ticker the handlers print. *)
Definition printed_ticker (d : dict) : value :=
  match Py.lookup "ticker" d with
  | Some t => t
  | None => VStr "unknown"
  end.






(** The rows of a table after a delete by ticker and the insert of [ds]. *)
Definition replaced (t : value) (ds old : list row) : list row :=
  (filter (fun x => negb (Sql.selects "ticker" t x)) old ++ ds)%list.

(** The shape of the rows of the two series tables. *)
Definition is_price_row (ticker r : value) : Prop :=
  exists date f,
    r = VDict [("ticker", ticker); ("date", date); ("price", VFloat f)].

Definition float_or_none (v : value) : Prop :=
  v = VNone \/ exists f, v = VFloat f.

Definition is_prediction_row (ticker r : value) : Prop :=
  exists date f ub lb,
    r = VDict [("ticker", ticker); ("date", date); ("price", VFloat f);
               ("upper_bound", ub); ("lower_bound", lb)] /\
    float_or_none ub /\ float_or_none lb.

(** A row whose keys are columns of a table. *)
Definition fits (t : Admin.table_decl) (r : value) : Prop :=
  exists d, r = VDict d /\ incl (map fst d) (Admin.column_names t).

(** A delete by ticker followed by the insert of the rows, as both series
    stages end. *)
Definition replace_rows (E : env) (table : string) (ticker : value)
    (rows : list value) : M unit :=
  execute E (Delete table "ticker" ticker) ;;
  if Py.truthy (VList rows) then execute E (Insert table (VList rows))
  else ret tt.

(* ===================================================================== *)
(** ** Records, stores and services used in the examples *)
(* ===================================================================== *)

Module Fixtures.

(** Records here carry numbers, never numerals in strings. *)
Definition plain_numerals : Py.numerals :=
  {| Py.float_of_string := fun _ => None;
     Py.int_of_string := fun _ => None |}.

Definition env_with (c : list request -> request -> db -> db * option exn)
  : env :=
  {| numerals_of := plain_numerals;
     client := c;
     clock := fun _ => "2024-03-01T09:30:00" |}.

Definition empty_db : db :=
  {| stocks := []; stock_prices := []; stock_predictions := [] |}.

Definition world_of (s : db) : world :=
  {| store := s; issued := []; stdout := []; ticks := 0 |}.

Definition point (date : string) (price : Z) : value :=
  VDict [("date", VStr date); ("price", VInt price)].

(** All fields present, N = 2 price points, M = 2 prediction points. *)
Definition complete_record : value :=
  VDict [("ticker", VStr "AAPL");
         ("name", VStr "Apple");
         ("sentiment_score", VInt 1);
         ("sentiment_category", VStr "Positive");
         ("investment_score", VInt 7);
         ("news_count", VInt 3);
         ("rank", VInt 1);
         ("historical_data",
          VList [point "2024-01-01" 10; point "2024-01-02" 11]);
         ("prediction",
          VDict [("data", VList [point "2024-02-01" 12; point "2024-02-02" 13]);
                 ("upper_bound",
                  VList [point "2024-02-01" 14; point "2024-02-02" 15]);
                 ("lower_bound",
                  VList [point "2024-02-01" 9; point "2024-02-02" 10])])].

(** Only the two mandatory fields. *)
Definition bare_record : value :=
  VDict [("ticker", VStr "AAPL"); ("name", VStr "Apple")].

(** A store that already holds rows of AAPL in every table. *)
Definition old_stock : row :=
  [("ticker", VStr "AAPL"); ("name", VStr "Apple Inc")].
Definition old_price : row :=
  [("ticker", VStr "AAPL"); ("date", VStr "2023-12-29"); ("price", VFloat one)].
Definition old_prediction : row :=
  [("ticker", VStr "AAPL"); ("date", VStr "2024-01-15"); ("price", VFloat one)].

Definition stocked_db : db :=
  {| stocks := [old_stock];
     stock_prices := [old_price];
     stock_predictions := [old_prediction] |}.

(** Every field present, both series empty, as the driver fills them in. *)
Definition empty_series_record : value :=
  VDict [("ticker", VStr "AAPL");
         ("name", VStr "Apple");
         ("sentiment_score", VFloat zero);
         ("sentiment_category", VStr "Neutral");
         ("investment_score", VFloat zero);
         ("news_count", VInt 0);
         ("rank", VInt 1);
         ("historical_data", VList []);
         ("prediction", VDict [("data", VList []);
                               ("upper_bound", VList []);
                               ("lower_bound", VList [])])].

(** The rows the two series stages build from [complete_record]. *)
Definition price_of (ticker date : string) (price : Z) : value :=
  VDict [("ticker", VStr ticker); ("date", VStr date);
         ("price", VFloat (Py.float_of_Z price))].

Definition prediction_of (ticker date : string) (price upper lower : Z)
  : value :=
  VDict [("ticker", VStr ticker); ("date", VStr date);
         ("price", VFloat (Py.float_of_Z price));
         ("upper_bound", VFloat (Py.float_of_Z upper));
         ("lower_bound", VFloat (Py.float_of_Z lower))].

Definition complete_price_rows : list value :=
  [price_of "AAPL" "2024-01-01" 10; price_of "AAPL" "2024-01-02" 11].

Definition complete_prediction_rows : list value :=
  [prediction_of "AAPL" "2024-02-01" 12 14 9;
   prediction_of "AAPL" "2024-02-02" 13 15 10].

(** A stand-in for the persistence method that stores every record it is
    given and answers [True]. *)
Definition storing_upsert (E : env) (stock_data : value) : M value :=
  execute E (Insert "stocks" stock_data) ;;
  ret (VBool true).

(** Three rows of a ranking; the second has no name. *)
Definition three_rows : dataframe :=
  [(VInt 0, [("ticker", VStr "AAPL"); ("name", VStr "Apple")]);
   (VInt 1, [("ticker", VStr "MSFT")]);
   (VInt 2, [("ticker", VStr "GOOG"); ("name", VStr "Alphabet")])].

End Fixtures.

(** Further records and batches, for the later sections. *)
Module Cases.

Import Fixtures.

(** The second price point has no ['price']. *)
Definition bad_point : value := VDict [("date", VStr "2024-01-02")].

Definition record_with_bad_point : value :=
  VDict [("ticker", VStr "AAPL");
         ("name", VStr "Apple");
         ("historical_data", VList [point "2024-01-01" 10; bad_point])].

(** Two prediction points, one upper bound. *)
Definition short_bounds : value :=
  VDict [("data", VList [point "2024-02-01" 12; point "2024-02-02" 13]);
         ("upper_bound", VList [point "2024-02-01" 14])].

Definition record_with_short_bounds : value :=
  VDict [("ticker", VStr "AAPL");
         ("name", VStr "Apple");
         ("prediction", short_bounds)].

(** A store with rows of two tickers in each series table. *)
Definition msft_price : row :=
  [("ticker", VStr "MSFT"); ("date", VStr "2023-12-29"); ("price", VFloat one)].
Definition msft_prediction : row :=
  [("ticker", VStr "MSFT"); ("date", VStr "2024-01-15"); ("price", VFloat one)].

Definition mixed_db : db :=
  {| stocks := [old_stock];
     stock_prices := [msft_price; old_price];
     stock_predictions := [old_prediction; msft_prediction] |}.


(** A row of a ranking with every column. *)
Definition ranked_row : dict :=
  [("ticker", VStr "AAPL"); ("name", VStr "Apple");
   ("avg_sentiment", VInt 1); ("sentiment_category", VStr "Positive");
   ("investment_score", VInt 7); ("news_count", VInt 3)].

End Cases.

(* ===================================================================== *)
(** ** The primitives on small inputs *)
(* ===================================================================== *)

Example float_of_zero num : Py.float num (VInt 0) = Ok (VFloat zero).
Proof. reflexivity. Qed.

Example int_of_float num :
  Py.int num (VFloat (Py.float_of_Z (-7))) = Ok (VInt (-7)).
Proof. vm_compute. reflexivity. Qed.

Example subscript_missing_key :
  Py.subscript (VDict [("a", VInt 1)]) (VStr "b") = Raise (KeyError (VStr "b")).
Proof. reflexivity. Qed.

Example subscript_negative_index :
  Py.subscript (VList [VInt 1; VInt 2]) (VInt (-1)) = Ok (VInt 2).
Proof. reflexivity. Qed.

Example get_on_none : Py.get VNone "ticker" (VStr "unknown") = Raise AttributeError.
Proof. reflexivity. Qed.

(* ===================================================================== *)
(** ** Reasoning about computations *)
(* ===================================================================== *)

(** Case analysis on the next pure step of a computation. *)
Ltac step_result :=
  match goal with
  | |- context [match ?c with Ok _ => _ | Raise _ => _ end] =>
      let x := fresh "x" in
      let Hx := fresh "Hx" in
      destruct c as [x | x] eqn:Hx
  end.

Lemma lift_run {A : Type} (r : result A) (w : world) : lift r w = (r, w).
Proof. reflexivity. Qed.

(** The world a pure step leaves is the one it found. *)
Lemma bind_lift {A B : Type} (r : result A) (k : A -> M B) (w : world) :
  (x <- lift r ;; k x) w =
  match r with Ok a => k a w | Raise e => (Raise e, w) end.
Proof. destruct r; reflexivity. Qed.

(** *** The dictionary [stock] has no entry ['id'] *)

Lemma prepare_stock_keys (E : env) (stock_data : value) (fields : dict) :
  prepare_stock E stock_data = Ok fields ->
  map fst fields =
  ["ticker"; "name"; "sentiment"; "news_count"; "rank"; "investment_score"].
Proof.
  unfold prepare_stock. cbn.
  repeat (step_result; try discriminate).
  intros H. injection H as <-. reflexivity.
Qed.

Lemma lookup_absent (k : string) (d : dict) :
  ~ In k (map fst d) -> Py.lookup k d = None.
Proof.
  induction d as [| [k' v] d IH]; cbn; intros Hn; [reflexivity |].
  destruct (String.eqb_spec k k') as [-> | Hne].
  - exfalso. apply Hn. now left.
  - apply IH. intros Hin. apply Hn. now right.
Qed.

Lemma lookup_app_absent (k : string) (d1 d2 : dict) :
  Py.lookup k d1 = None -> Py.lookup k (d1 ++ d2)%list = Py.lookup k d2.
Proof.
  induction d1 as [| [k' v] d1 IH]; cbn; [reflexivity |].
  destruct (String.eqb k k'); [discriminate | exact IH].
Qed.

Lemma stock_has_no_id (E : env) (stock_data : value) (fields : dict) (now : value) :
  prepare_stock E stock_data = Ok fields ->
  Py.subscript (VDict (fields ++ [("last_updated", now)])) (VStr "id")
  = Raise (KeyError (VStr "id")).
Proof.
  intros H. apply prepare_stock_keys in H.
  assert (Hid : Py.lookup "id" fields = None).
  { apply lookup_absent. rewrite H. cbn.
    intros Hin. repeat (destruct Hin as [Hin | Hin]; [discriminate |]). exact Hin. }
  cbn. rewrite (lookup_app_absent _ _ _ Hid). reflexivity.
Qed.

(** *** What the body of the [try] does on any input *)

(** The body never completes: either the fields of [stock] cannot be read,
    or reading [stock['id']] raises [KeyError].  No request is sent. *)
Lemma upsert_body_raises (E : env) (stock_data : value) (w : world) :
  (exists e, prepare_stock E stock_data = Raise e /\
             upsert_body E stock_data w = (Raise e, w))
  \/
  (exists fields, prepare_stock E stock_data = Ok fields /\
     upsert_body E stock_data w =
     (Raise (KeyError (VStr "id")),
      {| store := store w; issued := issued w;
         stdout := stdout w; ticks := S (ticks w) |})).
Proof.
  destruct (prepare_stock E stock_data) as [fields | e] eqn:Hp.
  - right. exists fields. split; [reflexivity |].
    unfold upsert_body, build_stock, replace_stock.
    cbn -[prepare_stock Py.subscript]. rewrite Hp.
    cbn -[prepare_stock Py.subscript].
    rewrite (stock_has_no_id E stock_data fields _ Hp). reflexivity.
  - left. exists e. split; [reflexivity |].
    unfold upsert_body, build_stock.
    cbn -[prepare_stock]. rewrite Hp. reflexivity.
Qed.


(** On a dictionary the handler prints one line and answers [False]. *)
Lemma upsert_handler_dict (d : dict) (e : exn) (w : world) :
  upsert_handler (VDict d) e w =
  (Ok (VBool false),
   {| store := store w; issued := issued w;
      stdout := (stdout w ++ [UpsertError (printed_ticker d) e])%list;
      ticks := ticks w |}).
Proof.
  unfold upsert_handler, printed_ticker. cbn.
  destruct (Py.lookup "ticker" d); reflexivity.
Qed.

(** On anything else the handler itself raises: [stock_data.get] does not
    exist. *)
Lemma upsert_handler_not_dict (stock_data : value) (e : exn) (w : world) :
  (forall d, stock_data <> VDict d) ->
  upsert_handler stock_data e w = (Raise AttributeError, w).
Proof.
  intros Hnd. destruct stock_data; try reflexivity.
  exfalso. now apply (Hnd d).
Qed.

Lemma prepare_stock_not_dict (E : env) (stock_data : value) :
  (forall d, stock_data <> VDict d) ->
  prepare_stock E stock_data = Raise TypeError.
Proof.
  intros Hnd. destruct stock_data; try reflexivity.
  exfalso. now apply (Hnd d).
Qed.


(** [upsert_stock_data] on a dictionary: [False], one line printed, no
    request sent, the store untouched. *)
Lemma upsert_dict_run (E : env) (d : dict) (w : world) :
  exists e n,
    upsert_stock_data E (VDict d) w =
    (Ok (VBool false),
     {| store := store w; issued := issued w;
        stdout := (stdout w ++ [UpsertError (printed_ticker d) e])%list;
        ticks := n |}).
Proof.
  unfold upsert_stock_data.
  destruct (upsert_body_raises E (VDict d) w)
    as [(e & _ & Hb) | (fields & _ & Hb)].
  - exists e, (ticks w).
    cbn -[upsert_body upsert_handler]. rewrite Hb.
    now rewrite upsert_handler_dict.
  - exists (KeyError (VStr "id")), (S (ticks w)).
    cbn -[upsert_body upsert_handler]. rewrite Hb.
    now rewrite upsert_handler_dict.
Qed.

(** No call of [upsert_stock_data], on any input and with any client,
    sends a request or changes the store. *)
Lemma upsert_sends_nothing (E : env) (stock_data : value) (w : world) :
  store (snd (upsert_stock_data E stock_data w)) = store w /\
  issued (snd (upsert_stock_data E stock_data w)) = issued w.
Proof.
  assert (Hcases : (exists d, stock_data = VDict d) \/
                   (forall d, stock_data <> VDict d)).
  { destruct stock_data; try (right; discriminate). left. now exists d. }
  destruct Hcases as [(d & ->) | Hnd].
  - destruct (upsert_dict_run E d w) as (e & n & ->). now split.
  - unfold upsert_stock_data. cbn -[upsert_body upsert_handler].
    destruct (upsert_body_raises E stock_data w)
      as [(e & _ & Hb) | (fields & Hp & _)].
    + rewrite Hb, (upsert_handler_not_dict _ _ _ Hnd). now split.
    + rewrite (prepare_stock_not_dict _ _ Hnd) in Hp. discriminate.
Qed.

(* ===================================================================== *)
(** ** Persistence of one record *)
(* ===================================================================== *)

Import Fixtures.

(** C1.  No record is persisted.  For every dictionary, every client and
    every world the call answers [False], sends no request and leaves the
    store as it was.  So it is for a record with every field present, two
    price points and two prediction points, written to an empty store
    through a service that never fails: the handler prints the [KeyError]
    of [stock['id']] and the three tables stay empty (instead of one, two
    and two rows). *)
Theorem complete_record_is_not_persisted :
  (forall (E : env) (d : dict) (w : world),
      fst (upsert_stock_data E (VDict d) w) = Ok (VBool false) /\
      issued (snd (upsert_stock_data E (VDict d) w)) = issued w /\
      store (snd (upsert_stock_data E (VDict d) w)) = store w) /\
  (let run := upsert_stock_data (env_with Sql.service) complete_record
                (world_of empty_db) in
   fst run = Ok (VBool false) /\
   stdout (snd run) = [UpsertError (VStr "AAPL") (KeyError (VStr "id"))] /\
   issued (snd run) = [] /\
   stocks (store (snd run)) = [] /\
   stock_prices (store (snd run)) = [] /\
   stock_predictions (store (snd run)) = []).
Proof.
  split.
  - intros E d w. destruct (upsert_dict_run E d w) as (e & n & ->).
    repeat split.
  - vm_compute. repeat split.
Qed.

(** C2.  The delete of table [stocks] names the column ['id'] and reads its
    value from [stock['id']]: when [stock] has no such entry nothing is
    sent, and otherwise the request filters on ['id'], never on the ticker.
    On the complete record the entry is missing, the body of the [try]
    stops with [KeyError('id')], and no delete reaches the table. *)
Theorem stocks_delete_is_keyed_by_id :
  (forall (E : env) (stock : value) (w : world),
      match Py.subscript stock (VStr "id") with
      | Ok v => exists rest,
          issued (snd (replace_stock E stock w)) =
          (issued w ++ Delete "stocks" "id" v :: rest)%list
      | Raise e => replace_stock E stock w = (Raise e, w)
      end) /\
  (forall (E : env) (w : world),
      fst (upsert_body E complete_record w) = Raise (KeyError (VStr "id")) /\
      issued (snd (upsert_body E complete_record w)) = issued w).
Proof.
  split.
  - intros E stock w. unfold replace_stock.
    cbn -[Py.subscript].
    destruct (Py.subscript stock (VStr "id")) as [v | e]; [| reflexivity].
    unfold execute.
    destruct (client E (issued w) (Delete "stocks" "id" v) (store w))
      as [s1 [e1 |]].
    + exists []. reflexivity.
    + cbn. destruct (client E _ _ s1) as [s2 [e2 |]];
        exists [Insert "stocks" stock]; cbn;
        now rewrite <- app_assoc.
  - intros E w.
    destruct (upsert_body_raises E complete_record w)
      as [(e & Hp & _) | (fields & _ & ->)].
    + vm_compute in Hp. discriminate.
    + now split.
Qed.



(** C5.  A record that has only its ticker and its name.  The row of
    [stocks] carries the defaults (scores [0.0], category ["Neutral"], counts
    [0]), both series count as empty so that neither stage sends anything,
    and the batch driver fills the same defaults in; yet the call answers
    [False], not [True]. *)
Theorem bare_record_defaults_and_failure (E : env) (w : world) :
  prepare_stock E bare_record =
    Ok [("ticker", VStr "AAPL");
        ("name", VStr "Apple");
        ("sentiment", VDict [("score", VFloat zero);
                             ("category", VStr "Neutral");
                             ("investment_score", VFloat zero)]);
        ("news_count", VInt 0);
        ("rank", VInt 0);
        ("investment_score", VFloat zero)] /\
  handle_historical_prices E bare_record w = (Ok tt, w) /\
  handle_predictions E bare_record w = (Ok tt, w) /\
  make_stock_data E (VInt 0) bare_record =
    Ok (VDict [("ticker", VStr "AAPL");
               ("name", VStr "Apple");
               ("sentiment_score", VFloat zero);
               ("sentiment_category", VStr "Neutral");
               ("investment_score", VFloat zero);
               ("news_count", VInt 0);
               ("rank", VInt 1);
               ("historical_data", VList []);
               ("prediction", VDict [("data", VList []);
                                     ("upper_bound", VList []);
                                     ("lower_bound", VList [])])]) /\
  fst (upsert_stock_data E bare_record w) = Ok (VBool false).
Proof.
  repeat split; reflexivity.
Qed.

(** C8.  No call changes the store, so no delete is ever left without its
    insert: with every insert failing and rows of the ticker already in
    the three tables, the call answers [False] and the old rows are all
    still there. *)
Theorem no_delete_is_ever_executed :
  (forall (E : env) (stock_data : value) (w : world),
      store (snd (upsert_stock_data E stock_data w)) = store w /\
      issued (snd (upsert_stock_data E stock_data w)) = issued w) /\
  (let run := upsert_stock_data (env_with Sql.failing_inserts) complete_record
                (world_of stocked_db) in
   fst run = Ok (VBool false) /\
   issued (snd run) = [] /\
   Sql.rows_for (VStr "AAPL") (stocks (store (snd run))) = [old_stock] /\
   Sql.rows_for (VStr "AAPL") (stock_prices (store (snd run))) = [old_price] /\
   Sql.rows_for (VStr "AAPL") (stock_predictions (store (snd run)))
     = [old_prediction]).
Proof.
  split.
  - intros E stock_data w. apply upsert_sends_nothing.
  - vm_compute. repeat split.
Qed.



(* ===================================================================== *)
(** ** The batch driver *)
(* ===================================================================== *)

Section Batch.

Variable E : env.
Variable method : value -> M value.








End Batch.



(** In that batch the record after the failing one is stored: the failure
    of the second record did not end the loop. *)
Example batch_goes_on_after_a_failure :
  let w' := snd (write_analysis (env_with Sql.service)
                   (storing_upsert (env_with Sql.service))
                   three_rows (world_of empty_db)) in
  map (Py.lookup "ticker") (stocks (store w')) =
    [Some (VStr "AAPL"); Some (VStr "GOOG")] /\
  stdout w' = [ProcessingError (VStr "MSFT") (KeyError (VStr "name"));
               Summary 2 1].
Proof. vm_compute. split; reflexivity. Qed.

(** With the method of the class itself every record of a batch counts as
    an error. *)
Example batch_with_the_class_method :
  fst (write_analysis_to_database (env_with Sql.service) three_rows
         (world_of empty_db)) = Ok (0, 3).
Proof. vm_compute. reflexivity. Qed.


(* ===================================================================== *)
(** ** The two series stages *)
(* ===================================================================== *)

Section Stages.

Variable E : env.

(** The stage of the historical prices, case by case. *)
Lemma handle_historical_prices_run (stock_data : value) (w : world) :
  handle_historical_prices E stock_data w =
  match Py.get stock_data "historical_data" VNone with
  | Raise e => (Raise e, w)
  | Ok h =>
      if Py.truthy h then
        match price_rows E stock_data with
        | Raise e => (Raise e, w)
        | Ok rows =>
            match Py.subscript stock_data (VStr "ticker") with
            | Raise e => (Raise e, w)
            | Ok t => replace_rows E "stock_prices" t rows w
            end
        end
      else (Ok tt, w)
  end.
Proof.
  unfold handle_historical_prices, replace_rows.
  cbn -[Py.get price_rows Py.subscript Py.truthy execute].
  destruct (Py.get stock_data "historical_data" VNone) as [h | e];
    [| reflexivity].
  destruct (Py.truthy h); [| reflexivity].
  cbn -[Py.get price_rows Py.subscript Py.truthy execute].
  destruct (price_rows E stock_data) as [rows | e]; [| reflexivity].
  destruct (Py.subscript stock_data (VStr "ticker")); reflexivity.
Qed.

(** The stage of the predictions, case by case. *)
Lemma handle_predictions_run (stock_data : value) (w : world) :
  handle_predictions E stock_data w =
  match has_predictions stock_data with
  | Raise e => (Raise e, w)
  | Ok true =>
      match prediction_rows E stock_data with
      | Raise e => (Raise e, w)
      | Ok rows =>
          match Py.subscript stock_data (VStr "ticker") with
          | Raise e => (Raise e, w)
          | Ok t => replace_rows E "stock_predictions" t rows w
          end
      end
  | Ok false => (Ok tt, w)
  end.
Proof.
  unfold handle_predictions, replace_rows.
  cbn -[has_predictions prediction_rows Py.subscript Py.truthy execute].
  destruct (has_predictions stock_data) as [[|] | e]; reflexivity.
Qed.


End Stages.

(** [for] loops over pure bodies keep one result per item. *)
Lemma mapM_length {A B : Type} (f : A -> result B) (xs : list A) (ys : list B) :
  mapM f xs = Ok ys -> List.length ys = List.length xs.
Proof.
  revert ys. induction xs as [| x xs IH]; intros ys; cbn.
  - intros H. injection H as <-. reflexivity.
  - destruct (f x) as [y | e]; [| discriminate].
    destruct (mapM f xs) as [ys' | e]; [| discriminate].
    intros H. injection H as <-. cbn. now rewrite (IH ys' eq_refl).
Qed.

Lemma length_nonempty {A : Type} (l : list A) :
  (0 < List.length l)%nat -> l <> [].
Proof. destruct l; cbn; [lia | discriminate]. Qed.

(** A value found by [x.get(k)] that counts as true is the one [x[k]]
    reads: the default [None] counts as false. *)
Lemma get_truthy_subscript (x : value) (k : string) (h : value) :
  Py.get x k VNone = Ok h -> Py.truthy h = true ->
  Py.subscript x (VStr k) = Ok h.
Proof.
  destruct x; cbn; try discriminate.
  destruct (Py.lookup k d) as [v |]; intros H Ht; injection H as <-;
    [reflexivity | discriminate].
Qed.

Lemma truthy_iter_nonempty (h : value) (items : list value) :
  Py.truthy h = true -> Py.iter h = Ok items -> items <> [].
Proof.
  destruct h as [| b | z | f | s | l | d]; cbn; try discriminate;
    intros Ht Hi; injection Hi as <-.
  - destruct s; [discriminate | cbn; discriminate].
  - destruct l; [discriminate | discriminate].
  - destruct d; [discriminate | cbn; discriminate].
Qed.

Lemma truthy_len_positive (d : value) (n : Z) :
  Py.truthy d = true -> Py.len d = Ok n -> 0 < n.
Proof.
  destruct d as [| b | z | f | s | l | d]; cbn; try discriminate;
    intros Ht Hl; injection Hl as <-.
  - destruct s; [discriminate | cbn; lia].
  - destruct l; [discriminate | cbn [List.length]; lia].
  - destruct d; [discriminate | cbn [List.length]; lia].
Qed.

Lemma range_length (n : Z) : List.length (Py.range n) = Z.to_nat n.
Proof. unfold Py.range. now rewrite length_map, length_seq. Qed.

(** Once a stage is entered its list of rows is not empty, so the inner
    tests of lines 54 and 77 always pass. *)
Lemma price_rows_nonempty (E : env) (stock_data h : value) (rows : list value) :
  Py.get stock_data "historical_data" VNone = Ok h ->
  Py.truthy h = true ->
  price_rows E stock_data = Ok rows ->
  rows <> [].
Proof.
  intros Hg Ht. unfold price_rows.
  rewrite (get_truthy_subscript _ _ _ Hg Ht).
  cbn -[Py.iter mapM price_row].
  destruct (Py.iter h) as [items | e] eqn:Hi; [| discriminate].
  intros Hm. apply mapM_length in Hm.
  pose proof (truthy_iter_nonempty _ _ Ht Hi) as Hne.
  apply length_nonempty. rewrite Hm.
  destruct items; [contradiction | cbn; lia].
Qed.

Lemma prediction_rows_nonempty (E : env) (stock_data : value)
    (rows : list value) :
  has_predictions stock_data = Ok true ->
  prediction_rows E stock_data = Ok rows ->
  rows <> [].
Proof.
  unfold has_predictions, prediction_rows.
  cbn -[Py.get Py.subscript Py.truthy Py.len mapM prediction_row Py.range].
  destruct (Py.get stock_data "prediction" VNone) as [p | e] eqn:Hg;
    [| discriminate].
  destruct (Py.truthy p) eqn:Hp; [| discriminate].
  rewrite (get_truthy_subscript _ _ _ Hg Hp).
  destruct (Py.get p "data" VNone) as [d | e] eqn:Hd; [| discriminate].
  intros Ht. injection Ht as Ht.
  rewrite (get_truthy_subscript _ _ _ Hd Ht).
  destruct (Py.len d) as [n | e] eqn:Hl; [| discriminate].
  intros Hm. apply mapM_length in Hm. rewrite range_length in Hm.
  pose proof (truthy_len_positive _ _ Ht Hl).
  apply length_nonempty. lia.
Qed.




(* ===================================================================== *)
(** ** The series stages over the reference service *)
(* ===================================================================== *)

Lemma filter_all {A : Type} (p : A -> bool) (l : list A) :
  Forall (fun x => p x = true) l -> filter p l = l.
Proof.
  induction 1 as [| x l Hx _ IH]; cbn; [reflexivity |].
  now rewrite Hx, IH.
Qed.

Lemma filter_none {A : Type} (p : A -> bool) (l : list A) :
  Forall (fun x => p x = false) l -> filter p l = [].
Proof.
  induction 1 as [| x l Hx _ IH]; cbn; [reflexivity |].
  now rewrite Hx, IH.
Qed.

Lemma filter_twice {A : Type} (p : A -> bool) (l : list A) :
  filter p (filter p l) = filter p l.
Proof.
  apply filter_all. apply Forall_forall. intros x Hin.
  now apply filter_In in Hin.
Qed.

Lemma filter_complement {A : Type} (p : A -> bool) (l : list A) :
  filter p (filter (fun x => negb (p x)) l) = [].
Proof.
  apply filter_none. apply Forall_forall. intros x Hin.
  apply filter_In in Hin as [_ Hx]. now destruct (p x).
Qed.

Section Replaced.

Variables (t : value) (ds : list row).
Hypothesis ds_of_ticker : Forall (fun d => Sql.selects "ticker" t d = true) ds.

(** Replacing twice is replacing once. *)
Lemma replaced_twice (old : list row) :
  replaced t ds (replaced t ds old) = replaced t ds old.
Proof.
  unfold replaced. rewrite filter_app, filter_twice.
  rewrite (filter_none _ ds); [now rewrite app_nil_r |].
  eapply Forall_impl; [| exact ds_of_ticker].
  intros d Hd. cbn in *. now rewrite Hd.
Qed.

(** After a replacement the rows of the ticker are the new rows. *)
Lemma rows_for_replaced (old : list row) :
  Sql.rows_for t (replaced t ds old) = ds.
Proof.
  unfold Sql.rows_for, replaced.
  rewrite filter_app, filter_complement.
  now rewrite (filter_all _ ds ds_of_ticker).
Qed.

End Replaced.

(** The rows a loop builds all carry the ticker of the record. *)
Lemma mapM_rows {A : Type} (f : A -> result value) (tk : value)
    (xs : list A) (rows : list value) :
  (forall x y, f x = Ok y ->
               exists d, y = VDict d /\ Py.lookup "ticker" d = Some tk) ->
  mapM f xs = Ok rows ->
  exists ds,
    Sql.as_rows rows = Some ds /\
    map VDict ds = rows /\
    Forall (fun d => Py.lookup "ticker" d = Some tk) ds.
Proof.
  intros Hf. revert rows. induction xs as [| x xs IH]; intros rows; cbn.
  - intros H. injection H as <-. exists []. repeat split. constructor.
  - destruct (f x) as [y | e] eqn:Hy; [| discriminate].
    destruct (mapM f xs) as [ys | e]; [| discriminate].
    intros H. injection H as <-.
    destruct (Hf x y Hy) as (d & -> & Hd).
    destruct (IH ys eq_refl) as (ds & Has & Hmap & Hall).
    exists (d :: ds). cbn. rewrite Has, Hmap.
    repeat split. now constructor.
Qed.

Lemma price_row_shape (E : env) (stock_data price y tk : value) :
  Py.subscript stock_data (VStr "ticker") = Ok tk ->
  price_row E stock_data price = Ok y ->
  exists d, y = VDict d /\ Py.lookup "ticker" d = Some tk.
Proof.
  intros Hk. unfold price_row. rewrite Hk.
  cbn -[Py.subscript float_].
  repeat (step_result; try discriminate).
  intros H. injection H as <-. eexists. split; reflexivity.
Qed.

Lemma prediction_row_shape (E : env) (stock_data y tk : value) (i : Z) :
  Py.subscript stock_data (VStr "ticker") = Ok tk ->
  prediction_row E stock_data i = Ok y ->
  exists d, y = VDict d /\ Py.lookup "ticker" d = Some tk.
Proof.
  intros Hk. unfold prediction_row.
  cbn -[Py.subscript float_ bound_at bound_price].
  repeat (step_result; try discriminate).
  intros H. injection H as <-. eexists. split; [reflexivity |].
  cbn. congruence.
Qed.

Lemma price_rows_shape (E : env) (stock_data tk : value) (rows : list value) :
  Py.subscript stock_data (VStr "ticker") = Ok tk ->
  price_rows E stock_data = Ok rows ->
  exists ds,
    Sql.as_rows rows = Some ds /\ map VDict ds = rows /\
    Forall (fun d => Py.lookup "ticker" d = Some tk) ds.
Proof.
  intros Hk. unfold price_rows.
  cbn -[Py.subscript Py.iter mapM price_row].
  repeat (step_result; try discriminate).
  apply mapM_rows. intros p y. now apply price_row_shape.
Qed.

Lemma prediction_rows_shape (E : env) (stock_data tk : value)
    (rows : list value) :
  Py.subscript stock_data (VStr "ticker") = Ok tk ->
  prediction_rows E stock_data = Ok rows ->
  exists ds,
    Sql.as_rows rows = Some ds /\ map VDict ds = rows /\
    Forall (fun d => Py.lookup "ticker" d = Some tk) ds.
Proof.
  intros Hk. unfold prediction_rows.
  cbn -[Py.subscript Py.len mapM prediction_row Py.range].
  repeat (step_result; try discriminate).
  apply mapM_rows. intros i y. now apply prediction_row_shape.
Qed.

Lemma selects_own_ticker (t : string) (ds : list row) :
  Forall (fun d => Py.lookup "ticker" d = Some (VStr t)) ds ->
  Forall (fun d => Sql.selects "ticker" (VStr t) d = true) ds.
Proof.
  apply Forall_impl. intros d Hd. unfold Sql.selects. rewrite Hd.
  cbn. apply String.eqb_refl.
Qed.

Section Service.

Variable E : env.
Hypothesis client_is_service : client E = Sql.service.

(** The two requests of a stage, answered by the reference service. *)
Lemma replace_prices_run (t : value) (rows : list value) (ds : list row)
    (w : world) :
  Sql.as_rows rows = Some ds -> rows <> [] ->
  store (snd (replace_rows E "stock_prices" t rows w)) =
  {| stocks := stocks (store w);
     stock_prices := replaced t ds (stock_prices (store w));
     stock_predictions := stock_predictions (store w) |}.
Proof.
  intros Has Hne. unfold replace_rows, execute.
  rewrite client_is_service. cbn.
  destruct rows as [| r rows]; [contradiction |].
  unfold Sql.service, Sql.apply, Sql.rows_of. cbn -[Sql.as_rows].
  rewrite Has. reflexivity.
Qed.

Lemma replace_predictions_run (t : value) (rows : list value) (ds : list row)
    (w : world) :
  Sql.as_rows rows = Some ds -> rows <> [] ->
  store (snd (replace_rows E "stock_predictions" t rows w)) =
  {| stocks := stocks (store w);
     stock_prices := stock_prices (store w);
     stock_predictions := replaced t ds (stock_predictions (store w)) |}.
Proof.
  intros Has Hne. unfold replace_rows, execute.
  rewrite client_is_service. cbn.
  destruct rows as [| r rows]; [contradiction |].
  unfold Sql.service, Sql.apply, Sql.rows_of. cbn -[Sql.as_rows].
  rewrite Has. reflexivity.
Qed.

(** What the stage of the prices leaves in the store. *)
Lemma prices_stage_store (stock_data : value) (t : string) (w : world) :
  Py.subscript stock_data (VStr "ticker") = Ok (VStr t) ->
  (exists h rows ds,
      Py.get stock_data "historical_data" VNone = Ok h /\
      Py.truthy h = true /\
      price_rows E stock_data = Ok rows /\
      map VDict ds = rows /\
      Forall (fun d => Sql.selects "ticker" (VStr t) d = true) ds /\
      store (snd (handle_historical_prices E stock_data w)) =
      {| stocks := stocks (store w);
         stock_prices := replaced (VStr t) ds (stock_prices (store w));
         stock_predictions := stock_predictions (store w) |})
  \/
  ((forall h, Py.get stock_data "historical_data" VNone = Ok h ->
              Py.truthy h = true ->
              exists e, price_rows E stock_data = Raise e) /\
   snd (handle_historical_prices E stock_data w) = w).
Proof.
  intros Hk. rewrite handle_historical_prices_run.
  destruct (Py.get stock_data "historical_data" VNone) as [h | e] eqn:Hg.
  - destruct (Py.truthy h) eqn:Ht.
    + destruct (price_rows E stock_data) as [rows | e] eqn:Hr.
      * left. rewrite Hk.
        destruct (price_rows_shape _ _ _ _ Hk Hr) as (ds & Has & Hmap & Hall).
        exists h, rows, ds. repeat split; try assumption.
        -- now apply selects_own_ticker.
        -- apply replace_prices_run; [exact Has |].
           eapply price_rows_nonempty; eassumption.
      * right. split; [| reflexivity].
        intros h' Hh' _. now exists e.
    + right. split; [| reflexivity].
      intros h' Hh' Ht'. congruence.
  - right. split; [| reflexivity]. intros h' Hh'. discriminate.
Qed.

(** What the stage of the predictions leaves in the store. *)
Lemma predictions_stage_store (stock_data : value) (t : string) (w : world) :
  Py.subscript stock_data (VStr "ticker") = Ok (VStr t) ->
  (exists rows ds,
      has_predictions stock_data = Ok true /\
      prediction_rows E stock_data = Ok rows /\
      map VDict ds = rows /\
      Forall (fun d => Sql.selects "ticker" (VStr t) d = true) ds /\
      store (snd (handle_predictions E stock_data w)) =
      {| stocks := stocks (store w);
         stock_prices := stock_prices (store w);
         stock_predictions :=
           replaced (VStr t) ds (stock_predictions (store w)) |})
  \/
  ((has_predictions stock_data = Ok true ->
    exists e, prediction_rows E stock_data = Raise e) /\
   snd (handle_predictions E stock_data w) = w).
Proof.
  intros Hk. rewrite handle_predictions_run.
  destruct (has_predictions stock_data) as [[|] | e] eqn:Hc.
  - destruct (prediction_rows E stock_data) as [rows | e] eqn:Hr.
    + left. rewrite Hk.
      destruct (prediction_rows_shape _ _ _ _ Hk Hr)
        as (ds & Has & Hmap & Hall).
      exists rows, ds. repeat split; try assumption.
      * now apply selects_own_ticker.
      * apply replace_predictions_run; [exact Has |].
        eapply prediction_rows_nonempty; eassumption.
    + right. split; [| reflexivity]. intros _. now exists e.
  - right. split; [| reflexivity]. discriminate.
  - right. split; [| reflexivity]. discriminate.
Qed.

End Service.

Lemma map_VDict_inj (ds ds' : list row) : map VDict ds = map VDict ds' -> ds = ds'.
Proof.
  revert ds'. induction ds as [| d ds IH]; intros [| d' ds']; cbn;
    try discriminate; [reflexivity |].
  intros H. injection H as -> H. now rewrite (IH _ H).
Qed.

Section Twice.

Variable E : env.
Hypothesis client_is_service : client E = Sql.service.
Variables (stock_data : value) (t : string).
Hypothesis ticker_is_t : Py.subscript stock_data (VStr "ticker") = Ok (VStr t).

(** The stage of the prices run twice. *)
Lemma prices_stage_twice (w : world) :
  let once := snd (handle_historical_prices E stock_data w) in
  let twice := snd (handle_historical_prices E stock_data once) in
  store twice = store once /\
  (forall h rows,
      Py.get stock_data "historical_data" VNone = Ok h ->
      Py.truthy h = true ->
      price_rows E stock_data = Ok rows ->
      map VDict (Sql.rows_for (VStr t) (stock_prices (store twice))) = rows) /\
  (forall h,
      Py.get stock_data "historical_data" VNone = Ok h ->
      Py.truthy h = false ->
      store twice = store w).
Proof.
  cbv zeta.
  destruct (prices_stage_store E client_is_service stock_data t w ticker_is_t)
    as [(h & rows & ds & Hg & Ht & Hr & Hmap & Hall & Hs) | (Hraise & Hw)].
  - destruct (prices_stage_store E client_is_service stock_data t
                (snd (handle_historical_prices E stock_data w)) ticker_is_t)
      as [(h' & rows' & ds' & _ & _ & Hr' & Hmap' & _ & Hs')
         | (Hraise' & _)].
    + assert (ds' = ds) as ->.
      { apply map_VDict_inj. rewrite Hmap, Hmap'. congruence. }
      rewrite Hs', Hs. cbn [stocks stock_prices stock_predictions].
      rewrite (replaced_twice _ _ Hall).
      split; [reflexivity |]. split.
      * intros h0 rows0 _ _ Hr0. rewrite (rows_for_replaced _ _ Hall).
        congruence.
      * intros h0 Hg0 Hf0. congruence.
    + destruct (Hraise' h Hg Ht) as (e & He). congruence.
  - rewrite Hw, Hw. split; [reflexivity |]. split.
    + intros h rows Hg Ht Hr. destruct (Hraise h Hg Ht) as (e & He).
      congruence.
    + reflexivity.
Qed.

(** The stage of the predictions run twice. *)
Lemma predictions_stage_twice (w : world) :
  let once := snd (handle_predictions E stock_data w) in
  let twice := snd (handle_predictions E stock_data once) in
  store twice = store once /\
  (forall rows,
      has_predictions stock_data = Ok true ->
      prediction_rows E stock_data = Ok rows ->
      map VDict (Sql.rows_for (VStr t) (stock_predictions (store twice)))
        = rows) /\
  (has_predictions stock_data = Ok false -> store twice = store w).
Proof.
  cbv zeta.
  destruct (predictions_stage_store E client_is_service stock_data t w
              ticker_is_t)
    as [(rows & ds & Hc & Hr & Hmap & Hall & Hs) | (Hraise & Hw)].
  - destruct (predictions_stage_store E client_is_service stock_data t
                (snd (handle_predictions E stock_data w)) ticker_is_t)
      as [(rows' & ds' & _ & Hr' & Hmap' & _ & Hs') | (Hraise' & _)].
    + assert (ds' = ds) as ->.
      { apply map_VDict_inj. rewrite Hmap, Hmap'. congruence. }
      rewrite Hs', Hs. cbn [stocks stock_prices stock_predictions].
      rewrite (replaced_twice _ _ Hall).
      split; [reflexivity |]. split.
      * intros rows0 _ Hr0. rewrite (rows_for_replaced _ _ Hall).
        congruence.
      * intros Hc0. congruence.
    + destruct (Hraise' Hc) as (e & He). congruence.
  - rewrite Hw, Hw. split; [reflexivity |]. split.
    + intros rows Hc Hr. destruct (Hraise Hc) as (e & He). congruence.
    + reflexivity.
Qed.

End Twice.

(** C6, a counterexample.  The complete record written twice over a store
    that holds older rows of its ticker, with a service that never fails:
    both calls answer [False], the store is what it was, so the old rows
    are still there and the new rows are in no table.  And a series stage
    run on a record whose series is empty leaves the old rows of the
    ticker in place. *)
Lemma second_call_leaves_old_rows :
  let E := env_with Sql.service in
  let once := upsert_stock_data E complete_record (world_of stocked_db) in
  let twice := upsert_stock_data E complete_record (snd once) in
  fst once = Ok (VBool false) /\
  fst twice = Ok (VBool false) /\
  store (snd twice) = stocked_db /\
  Sql.rows_for (VStr "AAPL") (stocks (store (snd twice))) = [old_stock] /\
  Sql.rows_for (VStr "AAPL") (stock_prices (store (snd twice))) = [old_price] /\
  Sql.rows_for (VStr "AAPL")
    (stock_prices
       (store (snd (handle_historical_prices E empty_series_record
                      (world_of stocked_db))))) = [old_price].
Proof. vm_compute. repeat split. Qed.

(** C6, as amended.  With the reference service and a record whose ticker
    is a string, each series stage run a second time leaves the store as
    the first run left it.  When the series is not empty the table then
    holds, for the ticker, exactly the rows built from the record; when it
    is absent or empty the stage leaves the store as it found it. *)
Theorem series_stages_idempotent (E : env) (stock_data : value) (t : string)
    (w : world) :
  client E = Sql.service ->
  Py.subscript stock_data (VStr "ticker") = Ok (VStr t) ->
  let prices1 := snd (handle_historical_prices E stock_data w) in
  let prices2 := snd (handle_historical_prices E stock_data prices1) in
  let predictions1 := snd (handle_predictions E stock_data w) in
  let predictions2 := snd (handle_predictions E stock_data predictions1) in
  store prices2 = store prices1 /\
  store predictions2 = store predictions1 /\
  (forall h rows,
      Py.get stock_data "historical_data" VNone = Ok h ->
      Py.truthy h = true ->
      price_rows E stock_data = Ok rows ->
      map VDict (Sql.rows_for (VStr t) (stock_prices (store prices2)))
        = rows) /\
  (forall rows,
      has_predictions stock_data = Ok true ->
      prediction_rows E stock_data = Ok rows ->
      map VDict (Sql.rows_for (VStr t)
                   (stock_predictions (store predictions2))) = rows) /\
  (forall h,
      Py.get stock_data "historical_data" VNone = Ok h ->
      Py.truthy h = false ->
      store prices2 = store w) /\
  (has_predictions stock_data = Ok false -> store predictions2 = store w).
Proof.
  intros Hc Hk. cbv zeta.
  destruct (prices_stage_twice E Hc stock_data t Hk w) as (P1 & P2 & P3).
  destruct (predictions_stage_twice E Hc stock_data t Hk w) as (Q1 & Q2 & Q3).
  repeat split; assumption.
Qed.

Lemma series_stages_idempotent_example :
  let E := env_with Sql.service in
  let w := world_of stocked_db in
  let prices1 := snd (handle_historical_prices E complete_record w) in
  let prices2 := snd (handle_historical_prices E complete_record prices1) in
  let predictions1 := snd (handle_predictions E complete_record w) in
  let predictions2 := snd (handle_predictions E complete_record predictions1) in
  let kept := snd (handle_historical_prices E empty_series_record
                     (snd (handle_historical_prices E empty_series_record w))) in
  store prices2 = store prices1 /\
  store predictions2 = store predictions1 /\
  map VDict (Sql.rows_for (VStr "AAPL") (stock_prices (store prices2)))
    = complete_price_rows /\
  map VDict (Sql.rows_for (VStr "AAPL")
               (stock_predictions (store predictions2)))
    = complete_prediction_rows /\
  store kept = store w.
Proof.
  cbv zeta.
  destruct (series_stages_idempotent (env_with Sql.service) complete_record
              "AAPL" (world_of stocked_db) eq_refl eq_refl)
    as (H1 & H2 & H3 & H4 & _ & _).
  destruct (series_stages_idempotent (env_with Sql.service) empty_series_record
              "AAPL" (world_of stocked_db) eq_refl eq_refl)
    as (_ & _ & _ & _ & H5 & _).
  split; [exact H1 |].
  split; [exact H2 |].
  split; [apply (H3 (VList [point "2024-01-01" 10; point "2024-01-02" 11]));
          reflexivity |].
  split; [apply H4; reflexivity |].
  apply (H5 (VList [])); reflexivity.
Defined.

(* ===================================================================== *)
(** ** Further properties of the series stages *)
(* ===================================================================== *)

(** The stage of the prices is not atomic.  When the insert fails after
    the delete was executed, the stage raises, both requests have been
    sent, the rows the ticker had are gone and none has replaced them; the
    handler of [upsert_stock_data] then only prints. *)
Theorem prices_stage_is_not_atomic (E : env) (stock_data h : value)
    (t : string) (rows : list value) (w : world) :
  client E = Sql.failing_inserts ->
  Py.subscript stock_data (VStr "ticker") = Ok (VStr t) ->
  Py.get stock_data "historical_data" VNone = Ok h ->
  Py.truthy h = true ->
  price_rows E stock_data = Ok rows ->
  exists w',
    handle_historical_prices E stock_data w
      = (Raise (ClientError "insert failed"), w') /\
    issued w' = (issued w ++ [Delete "stock_prices" "ticker" (VStr t);
                              Insert "stock_prices" (VList rows)])%list /\
    Sql.rows_for (VStr t) (stock_prices (store w')) = [] /\
    (forall e, store (snd (upsert_handler stock_data e w')) = store w').
Proof.
  intros Hc Hk Hg Ht Hr.
  pose proof (price_rows_nonempty _ _ _ _ Hg Ht Hr) as Hne.
  rewrite handle_historical_prices_run, Hg, Ht, Hr, Hk.
  unfold replace_rows, execute. rewrite Hc.
  destruct rows as [| r rows]; [contradiction |].
  cbn -[Sql.rows_for upsert_handler].
  eexists. split; [reflexivity |].
  cbn -[Sql.rows_for upsert_handler].
  split; [now rewrite <- app_assoc |].
  split.
  - unfold Sql.rows_for. apply filter_complement.
  - intros e. unfold upsert_handler.
    cbn -[Py.get]. destruct (Py.get stock_data "ticker" (VStr "unknown"));
      reflexivity.
Qed.

Lemma prices_stage_is_not_atomic_example :
  exists w',
    handle_historical_prices (env_with Sql.failing_inserts) complete_record
      (world_of stocked_db)
      = (Raise (ClientError "insert failed"), w') /\
    issued w' = (issued (world_of stocked_db) ++
                 [Delete "stock_prices" "ticker" (VStr "AAPL");
                  Insert "stock_prices" (VList complete_price_rows)])%list /\
    Sql.rows_for (VStr "AAPL") (stock_prices (store w')) = [] /\
    (forall e, store (snd (upsert_handler complete_record e w')) = store w').
Proof.
  apply (prices_stage_is_not_atomic (env_with Sql.failing_inserts)
           complete_record
           (VList [point "2024-01-01" 10; point "2024-01-02" 11])
           "AAPL" complete_price_rows (world_of stocked_db));
    reflexivity.
Defined.

(** One row per point: the rows built for [stock_prices] are as many as
    the price points of the record, and the rows built for
    [stock_predictions] as many as its prediction points. *)
Theorem one_row_per_point (E : env) (stock_data prediction : value)
    (prices points rows rows' : list value) :
  Py.subscript stock_data (VStr "historical_data") = Ok (VList prices) ->
  Py.subscript stock_data (VStr "prediction") = Ok prediction ->
  Py.subscript prediction (VStr "data") = Ok (VList points) ->
  price_rows E stock_data = Ok rows ->
  prediction_rows E stock_data = Ok rows' ->
  List.length rows = List.length prices /\
  List.length rows' = List.length points.
Proof.
  intros Hh Hp Hd Hr Hr'. split.
  - unfold price_rows in Hr. rewrite Hh in Hr.
    cbn -[mapM price_row] in Hr. now apply mapM_length in Hr.
  - unfold prediction_rows in Hr'. rewrite Hp in Hr'.
    cbn -[mapM prediction_row Py.subscript Py.range] in Hr'.
    rewrite Hd in Hr'. cbn -[mapM prediction_row Py.range] in Hr'.
    apply mapM_length in Hr'. rewrite Hr', range_length. lia.
Qed.

Lemma one_row_per_point_example :
  List.length complete_price_rows = 2%nat /\
  List.length complete_prediction_rows = 2%nat.
Proof.
  apply (one_row_per_point (env_with Sql.service) complete_record
           (VDict [("data", VList [point "2024-02-01" 12; point "2024-02-02" 13]);
                   ("upper_bound",
                    VList [point "2024-02-01" 14; point "2024-02-02" 15]);
                   ("lower_bound",
                    VList [point "2024-02-01" 9; point "2024-02-02" 10])])
           [point "2024-01-01" 10; point "2024-01-02" 11]
           [point "2024-02-01" 12; point "2024-02-02" 13]
           complete_price_rows complete_prediction_rows);
    reflexivity.
Defined.

(* ===================================================================== *)
(** ** Malformed series *)
(* ===================================================================== *)

Import Cases.

(** A loop stops at the first item whose body raises. *)
Lemma mapM_app_raise {A B : Type} (f : A -> result B) (pre rest : list A)
    (x : A) (e : exn) :
  Forall (fun a => exists b, f a = Ok b) pre ->
  f x = Raise e ->
  mapM f (pre ++ x :: rest) = Raise e.
Proof.
  intros Hpre Hx. induction Hpre as [| a pre (b & Hb) _ IH]; cbn.
  - now rewrite Hx.
  - now rewrite Hb, IH.
Qed.

(** A loop with an item whose body raises does not complete. *)
Lemma mapM_raises {A B : Type} (f : A -> result B) (xs : list A) (x : A)
    (e : exn) :
  In x xs -> f x = Raise e -> exists e', mapM f xs = Raise e'.
Proof.
  intros Hin Hx. induction xs as [| a xs IH]; [contradiction |].
  cbn. destruct (f a) as [b | e1] eqn:Ha; [| now exists e1].
  destruct Hin as [-> | Hin]; [congruence |].
  destruct (IH Hin) as (e' & ->). now exists e'.
Qed.

Lemma nth_item_inside (l : list value) (i : Z) :
  0 <= i < Z.of_nat (List.length l) -> exists v, Py.nth_item l i = Ok v.
Proof.
  intros Hi. unfold Py.nth_item.
  destruct (Z.ltb_spec i 0); [lia |].
  destruct (Z.ltb_spec i 0); [lia |].
  destruct (Z.leb_spec (Z.of_nat (List.length l)) i); [lia |]. cbn.
  destruct (nth_error l (Z.to_nat i)) as [v |] eqn:Hn; [now exists v |].
  apply nth_error_None in Hn. lia.
Qed.

Lemma nth_item_outside (l : list value) (i : Z) :
  Z.of_nat (List.length l) <= i -> Py.nth_item l i = Raise IndexError.
Proof.
  intros Hi. unfold Py.nth_item.
  destruct (Z.ltb_spec i 0); [lia |].
  destruct (Z.ltb_spec i 0); [lia |].
  destruct (Z.leb_spec (Z.of_nat (List.length l)) i); [reflexivity | lia].
Qed.

(** [range(n)] up to an index inside it. *)
Lemma range_split (n m : Z) :
  0 <= m < n ->
  exists rest, Py.range n = (Py.range m ++ m :: rest)%list.
Proof.
  intros Hm. unfold Py.range.
  replace (Z.to_nat n) with (Z.to_nat m + S (Z.to_nat n - S (Z.to_nat m)))%nat
    by lia.
  rewrite seq_app, map_app. cbn [seq map plus].
  rewrite Z2Nat.id by lia. eexists. reflexivity.
Qed.

Lemma in_range (n j : Z) : In j (Py.range n) -> 0 <= j < n.
Proof.
  unfold Py.range. intros Hin. apply in_map_iff in Hin as (k & <- & Hk).
  apply in_seq in Hk. lia.
Qed.

(** A dictionary that holds a list under a key, read with [get]. *)
Lemma get_list_is_dict (x : value) (k : string) (l : list value) :
  Py.get x k VNone = Ok (VList l) ->
  Py.subscript x (VStr k) = Ok (VList l) /\ Py.truthy x = true.
Proof.
  destruct x; cbn; try discriminate.
  destruct (Py.lookup k d) as [v |] eqn:Hl; intros H; [| discriminate].
  injection H as ->.
  destruct d as [| kv d]; [discriminate | now split].
Qed.

Lemma nonempty_truthy (l : list value) : l <> [] -> Py.truthy (VList l) = true.
Proof. destruct l; [contradiction | reflexivity]. Qed.

(** The test of line 58 on a record whose prediction holds a list of
    points that is not empty. *)
Lemma has_predictions_of_points (stock_data p : value) (points : list value) :
  Py.get stock_data "prediction" VNone = Ok p ->
  Py.get p "data" VNone = Ok (VList points) ->
  points <> [] ->
  has_predictions stock_data = Ok true /\
  Py.subscript stock_data (VStr "prediction") = Ok p /\
  Py.subscript p (VStr "data") = Ok (VList points).
Proof.
  intros Hp Hd Hne.
  destruct (get_list_is_dict _ _ _ Hd) as [Hsd Htp].
  pose proof (get_truthy_subscript _ _ _ Hp Htp) as Hsp.
  unfold has_predictions.
  cbn -[Py.get Py.subscript Py.truthy].
  rewrite Hp, Htp, Hsp, Hd, (nonempty_truthy _ Hne). now repeat split.
Qed.

(** All rows are built before the first request: one malformed point
    anywhere in a series makes its stage raise with nothing sent, so the
    rows the ticker has in the table are not deleted. *)
Theorem malformed_point_sends_nothing (E : env) (stock_data : value)
    (w : world) :
  (forall items bad e,
      Py.get stock_data "historical_data" VNone = Ok (VList items) ->
      In bad items ->
      price_row E stock_data bad = Raise e ->
      exists e', handle_historical_prices E stock_data w = (Raise e', w)) /\
  (forall p points i e,
      Py.get stock_data "prediction" VNone = Ok p ->
      Py.get p "data" VNone = Ok (VList points) ->
      0 <= i < Z.of_nat (List.length points) ->
      prediction_row E stock_data i = Raise e ->
      exists e', handle_predictions E stock_data w = (Raise e', w)).
Proof.
  split.
  - intros items bad e Hg Hin Hbad.
    assert (Hne : items <> []) by (intros ->; contradiction).
    destruct (get_list_is_dict _ _ _ Hg) as [Hs _].
    destruct (mapM_raises _ _ _ _ Hin Hbad) as (e' & Hm).
    exists e'. rewrite handle_historical_prices_run, Hg.
    rewrite (nonempty_truthy _ Hne).
    unfold price_rows. rewrite Hs. cbn -[mapM price_row].
    now rewrite Hm.
  - intros p points i e Hp Hd Hi Hbad.
    assert (Hne : points <> []).
    { intros ->. cbn in Hi. lia. }
    destruct (has_predictions_of_points _ _ _ Hp Hd Hne) as (Hc & Hsp & Hsd).
    assert (Hin : In i (Py.range (Z.of_nat (List.length points)))).
    { unfold Py.range. apply in_map_iff. exists (Z.to_nat i).
      split; [lia |]. apply in_seq. lia. }
    destruct (mapM_raises _ _ _ _ Hin Hbad) as (e' & Hm).
    exists e'. rewrite handle_predictions_run, Hc.
    unfold prediction_rows. rewrite Hsp.
    cbn -[mapM prediction_row Py.subscript Py.range].
    rewrite Hsd. cbn -[mapM prediction_row Py.range].
    now rewrite Hm.
Qed.

Lemma malformed_point_sends_nothing_example :
  (exists e', handle_historical_prices (Fixtures.env_with Sql.service)
                record_with_bad_point (Fixtures.world_of Fixtures.stocked_db)
              = (Raise e', Fixtures.world_of Fixtures.stocked_db)) /\
  (exists e', handle_predictions (Fixtures.env_with Sql.service)
                record_with_short_bounds (Fixtures.world_of Fixtures.stocked_db)
              = (Raise e', Fixtures.world_of Fixtures.stocked_db)).
Proof.
  split.
  - apply (proj1 (malformed_point_sends_nothing (Fixtures.env_with Sql.service)
                    record_with_bad_point
                    (Fixtures.world_of Fixtures.stocked_db))
             [Fixtures.point "2024-01-01" 10; bad_point] bad_point
             (KeyError (VStr "price"))).
    + reflexivity.
    + right. left. reflexivity.
    + reflexivity.
  - apply (proj2 (malformed_point_sends_nothing (Fixtures.env_with Sql.service)
                    record_with_short_bounds
                    (Fixtures.world_of Fixtures.stocked_db))
             short_bounds
             [Fixtures.point "2024-02-01" 12; Fixtures.point "2024-02-02" 13]
             1 IndexError).
    + reflexivity.
    + reflexivity.
    + cbn. lia.
    + reflexivity.
Defined.

(** Fewer upper bounds than prediction points: the loop reaches the first
    point that has no bound, [upper_bound[i]] raises [IndexError], and the
    stage ends there with nothing sent. *)
Theorem short_upper_bounds_raise (E : env) (stock_data p : value)
    (points bounds : list value) (w : world) :
  Py.get stock_data "prediction" VNone = Ok p ->
  Py.get p "data" VNone = Ok (VList points) ->
  Py.get p "upper_bound" VNone = Ok (VList bounds) ->
  bounds <> [] ->
  (List.length bounds < List.length points)%nat ->
  (forall j, 0 <= j < Z.of_nat (List.length bounds) ->
             exists y, prediction_row E stock_data j = Ok y) ->
  handle_predictions E stock_data w = (Raise IndexError, w).
Proof.
  intros Hp Hd Hu Hb Hlen Hrows.
  assert (Hne : points <> []) by (intros ->; cbn in Hlen; lia).
  destruct (has_predictions_of_points _ _ _ Hp Hd Hne) as (Hc & Hsp & Hsd).
  destruct (get_list_is_dict _ _ _ Hu) as [Hsu _].
  set (m := Z.of_nat (List.length bounds)).
  (* the row of the first point without a bound *)
  assert (Hm : prediction_row E stock_data m = Raise IndexError).
  { unfold prediction_row, bound_at.
    rewrite Hsp. cbn -[Py.subscript Py.get Py.truthy float_ bound_price].
    rewrite Hsd. cbn -[Py.subscript Py.get Py.truthy float_ bound_price Py.nth_item].
    change (Py.subscript (VList points) (VInt m)) with (Py.nth_item points m).
    destruct (nth_item_inside points m) as (v & ->); [unfold m; lia |].
    rewrite Hu, (nonempty_truthy _ Hb), Hsu.
    change (Py.subscript (VList bounds) (VInt m)) with (Py.nth_item bounds m).
    rewrite nth_item_outside by (unfold m; lia). reflexivity. }
  destruct (range_split (Z.of_nat (List.length points)) m) as (rest & Hr);
    [unfold m; lia |].
  rewrite handle_predictions_run, Hc.
  unfold prediction_rows. rewrite Hsp.
  cbn -[mapM prediction_row Py.subscript Py.range].
  rewrite Hsd. cbn -[mapM prediction_row Py.range].
  rewrite Hr, (mapM_app_raise _ _ _ _ IndexError); [reflexivity | | exact Hm].
  apply Forall_forall. intros j Hj. apply Hrows.
  apply in_range in Hj. exact Hj.
Qed.

Lemma short_upper_bounds_raise_example :
  handle_predictions (Fixtures.env_with Sql.service) record_with_short_bounds
    (Fixtures.world_of Fixtures.stocked_db)
  = (Raise IndexError, Fixtures.world_of Fixtures.stocked_db).
Proof.
  apply (short_upper_bounds_raise (Fixtures.env_with Sql.service)
           record_with_short_bounds short_bounds
           [Fixtures.point "2024-02-01" 12; Fixtures.point "2024-02-02" 13]
           [Fixtures.point "2024-02-01" 14]).
  - reflexivity.
  - reflexivity.
  - reflexivity.
  - discriminate.
  - cbn. lia.
  - intros j Hj. cbn in Hj. assert (j = 0) as -> by lia.
    eexists. reflexivity.
Defined.

(* ===================================================================== *)
(** ** What a stage leaves alone *)
(* ===================================================================== *)

Lemma selects_string (t : string) (r : row) :
  Sql.selects "ticker" (VStr t) r = true ->
  Py.lookup "ticker" r = Some (VStr t).
Proof.
  unfold Sql.selects. destruct (Py.lookup "ticker" r) as [x |]; [| discriminate].
  destruct x; cbn; try discriminate.
  intros H. apply String.eqb_eq in H. now subst.
Qed.

Lemma selects_other (t t' : string) (r : row) :
  t' <> t ->
  Sql.selects "ticker" (VStr t) r = true ->
  Sql.selects "ticker" (VStr t') r = false.
Proof.
  intros Hne H. apply selects_string in H. unfold Sql.selects. rewrite H.
  cbn. now apply String.eqb_neq.
Qed.

(** The rows of another ticker go through a replacement unchanged. *)
Lemma rows_for_other (t t' : string) (ds old : list row) :
  t' <> t ->
  Forall (fun d => Sql.selects "ticker" (VStr t) d = true) ds ->
  Sql.rows_for (VStr t') (replaced (VStr t) ds old)
  = Sql.rows_for (VStr t') old.
Proof.
  intros Hne Hds. unfold Sql.rows_for, replaced. rewrite filter_app.
  rewrite (filter_none _ ds).
  - rewrite app_nil_r. induction old as [| r old IH]; [reflexivity |].
    cbn. destruct (Sql.selects "ticker" (VStr t) r) eqn:Ht; cbn.
    + rewrite (selects_other _ _ _ Hne Ht). exact IH.
    + destruct (Sql.selects "ticker" (VStr t') r); now rewrite IH.
  - eapply Forall_impl; [| exact Hds].
    intros d Hd. now apply (selects_other t).
Qed.

(** With the reference service, a series stage changes nothing but the
    rows of the record's ticker in its own table: the rows of any other
    ticker in that table and the two other tables are as before. *)
Theorem stages_touch_only_their_ticker (E : env) (stock_data : value)
    (t t' : string) (w : world) :
  client E = Sql.service ->
  Py.subscript stock_data (VStr "ticker") = Ok (VStr t) ->
  t' <> t ->
  let prices := store (snd (handle_historical_prices E stock_data w)) in
  let predictions := store (snd (handle_predictions E stock_data w)) in
  (Sql.rows_for (VStr t') (stock_prices prices)
     = Sql.rows_for (VStr t') (stock_prices (store w)) /\
   stocks prices = stocks (store w) /\
   stock_predictions prices = stock_predictions (store w)) /\
  (Sql.rows_for (VStr t') (stock_predictions predictions)
     = Sql.rows_for (VStr t') (stock_predictions (store w)) /\
   stocks predictions = stocks (store w) /\
   stock_prices predictions = stock_prices (store w)).
Proof.
  intros Hc Hk Hne. cbv zeta. split.
  - destruct (prices_stage_store E Hc stock_data t w Hk)
      as [(h & rows & ds & _ & _ & _ & _ & Hall & ->) | (_ & ->)].
    + cbn [stocks stock_prices stock_predictions].
      now rewrite (rows_for_other _ _ _ _ Hne Hall).
    + now repeat split.
  - destruct (predictions_stage_store E Hc stock_data t w Hk)
      as [(rows & ds & _ & _ & _ & Hall & ->) | (_ & ->)].
    + cbn [stocks stock_prices stock_predictions].
      now rewrite (rows_for_other _ _ _ _ Hne Hall).
    + now repeat split.
Qed.

Lemma stages_touch_only_their_ticker_example :
  let E := Fixtures.env_with Sql.service in
  let w := Fixtures.world_of mixed_db in
  let prices := store (snd (handle_historical_prices E Fixtures.complete_record w)) in
  let predictions := store (snd (handle_predictions E Fixtures.complete_record w)) in
  (Sql.rows_for (VStr "MSFT") (stock_prices prices)
     = Sql.rows_for (VStr "MSFT") (stock_prices (store w)) /\
   stocks prices = stocks (store w) /\
   stock_predictions prices = stock_predictions (store w)) /\
  (Sql.rows_for (VStr "MSFT") (stock_predictions predictions)
     = Sql.rows_for (VStr "MSFT") (stock_predictions (store w)) /\
   stocks predictions = stocks (store w) /\
   stock_prices predictions = stock_prices (store w)).
Proof.
  apply (stages_touch_only_their_ticker (Fixtures.env_with Sql.service)
           Fixtures.complete_record "AAPL" "MSFT" (Fixtures.world_of mixed_db)).
  - reflexivity.
  - reflexivity.
  - discriminate.
Defined.

(* ===================================================================== *)
(** ** The batch driver on its edge cases *)
(* ===================================================================== *)




Section Edge.

Variable E : env.



End Edge.



Section Class_method.

Variable E : env.



End Class_method.


(** The coercions answer numbers. *)
Lemma float_value (E : env) (x y : value) :
  float_ E x = Ok y -> exists f, y = VFloat f.
Proof.
  unfold float_. destruct x; cbn -[Py.float_of_Z is_infinity];
    try discriminate.
  - intros H. injection H as <-. eauto.
  - destruct (is_infinity (Py.float_of_Z z)); [discriminate |].
    intros H. injection H as <-. eauto.
  - intros H. injection H as <-. eauto.
  - destruct (Py.float_of_string (numerals_of E) s); [| discriminate].
    intros H. injection H as <-. eauto.
Qed.

Lemma int_value (E : env) (x y : value) :
  int_ E x = Ok y -> exists n, y = VInt n.
Proof.
  unfold int_. destruct x; cbn -[Prim2SF]; try discriminate.
  - intros H. injection H as <-. eauto.
  - intros H. injection H as <-. eauto.
  - destruct (Prim2SF f); try discriminate;
      intros H; injection H as <-; eauto.
  - destruct (Py.int_of_string (numerals_of E) s); [| discriminate].
    intros H. injection H as <-. eauto.
Qed.

Ltac numbers :=
  repeat match goal with
         | H : match ?c with Ok _ => _ | Raise _ => _ end = Ok _ |- _ =>
             destruct c; [| discriminate H]
         | H : float_ _ _ = Ok _ |- _ => apply float_value in H as (? & ->)
         | H : int_ _ _ = Ok _ |- _ => apply int_value in H as (? & ->)
         end.

(** From the driver to the mapper.  A record the driver builds for a row
    at integer position [i] holds float scores, an integer count and the
    rank [i + 1]; the mapper of [upsert_stock_data] accepts it (its
    coercions change nothing any more) and builds from it the fields of
    the row of [stocks] with the same values and the rank [i + 1]. *)
Theorem driver_record_passes_the_mapper (E : env) (i : Z)
    (stock stock_data : value) :
  make_stock_data E (VInt i) stock = Ok stock_data ->
  exists ticker name score category inv news series prediction,
    stock_data =
      VDict [("ticker", ticker); ("name", name);
             ("sentiment_score", VFloat score);
             ("sentiment_category", category);
             ("investment_score", VFloat inv);
             ("news_count", VInt news);
             ("rank", VInt (i + 1));
             ("historical_data", series);
             ("prediction", prediction)] /\
    prepare_stock E stock_data =
      Ok [("ticker", ticker); ("name", name);
          ("sentiment", VDict [("score", VFloat score);
                               ("category", category);
                               ("investment_score", VFloat inv)]);
          ("news_count", VInt news);
          ("rank", VInt (i + 1));
          ("investment_score", VFloat inv)].
Proof.
  intros H. unfold make_stock_data in H.
  cbn -[Py.subscript Py.get float_ int_] in H.
  repeat match type of H with
         | context [match ?c with Ok _ => _ | Raise _ => _ end] =>
             destruct c eqn:?; [| discriminate H];
             cbn -[Py.subscript Py.get float_ int_] in H
         end.
  injection H as <-. numbers.
  do 8 eexists. split; reflexivity.
Qed.

Lemma driver_record_passes_the_mapper_example :
  exists ticker name score category inv news series prediction,
    VDict [("ticker", VStr "AAPL"); ("name", VStr "Apple");
           ("sentiment_score", VFloat (Py.float_of_Z 1));
           ("sentiment_category", VStr "Positive");
           ("investment_score", VFloat (Py.float_of_Z 7));
           ("news_count", VInt 3);
           ("rank", VInt (4 + 1));
           ("historical_data", VList []);
           ("prediction", VDict [("data", VList []);
                                 ("upper_bound", VList []);
                                 ("lower_bound", VList [])])] =
      VDict [("ticker", ticker); ("name", name);
             ("sentiment_score", VFloat score);
             ("sentiment_category", category);
             ("investment_score", VFloat inv);
             ("news_count", VInt news);
             ("rank", VInt (4 + 1));
             ("historical_data", series);
             ("prediction", prediction)] /\
    prepare_stock (Fixtures.env_with Sql.service)
      (VDict [("ticker", VStr "AAPL"); ("name", VStr "Apple");
              ("sentiment_score", VFloat (Py.float_of_Z 1));
              ("sentiment_category", VStr "Positive");
              ("investment_score", VFloat (Py.float_of_Z 7));
              ("news_count", VInt 3);
              ("rank", VInt (4 + 1));
              ("historical_data", VList []);
              ("prediction", VDict [("data", VList []);
                                    ("upper_bound", VList []);
                                    ("lower_bound", VList [])])]) =
      Ok [("ticker", ticker); ("name", name);
          ("sentiment", VDict [("score", VFloat score);
                               ("category", category);
                               ("investment_score", VFloat inv)]);
          ("news_count", VInt news);
          ("rank", VInt (4 + 1));
          ("investment_score", VFloat inv)].
Proof.
  apply (driver_record_passes_the_mapper (Fixtures.env_with Sql.service) 4
           (VDict ranked_row)).
  reflexivity.
Defined.

(* ===================================================================== *)
(** ** The schema functions *)
(* ===================================================================== *)

Example lower_mixed_case :
  Text.lower "Relation DOES NOT Exist" = "relation does not exist".
Proof. reflexivity. Qed.

Example contains_inside :
  Text.contains "does not exist" "relation stocks does not exist" = true /\
  Text.contains "does not exist" "connection refused" = false.
Proof. split; reflexivity. Qed.

Module AdminFacts.

Import Admin.

Section With_client.

Variable client : list call -> call -> option string.

(** One policy: the statement is sent, and nothing is raised. *)
Lemma create_policy_run (p : statement) (w : console) :
  create_policy client p w =
  (Done tt,
   {| calls := (calls w ++ [Query p])%list;
      lines := match client (calls w) (Query p) with
               | Some msg =>
                   if Text.contains "already exists" (Text.lower msg)
                   then lines w
                   else (lines w ++ [PolicyWarning msg])%list
               | None => lines w
               end |}).
Proof.
  unfold create_policy, execute. cbn -[Text.contains Text.lower].
  destruct (client (calls w) (Query p)) as [msg |]; [| reflexivity].
  destruct (Text.contains "already exists" (Text.lower msg)); reflexivity.
Qed.

(** The loop over the policies: every statement is sent, whatever the
    client answers; the only trace of a failure is a warning, and none is
    printed for a failure that says the policy already exists. *)
Lemma policies_loop (ps : list statement) (w : console) :
  exists msgs,
    for_each (create_policy client) ps w =
    (Done tt, {| calls := (calls w ++ map Query ps)%list;
                 lines := (lines w ++ map PolicyWarning msgs)%list |}) /\
    (List.length msgs <= List.length ps)%nat /\
    Forall (fun m => Text.contains "already exists" (Text.lower m) = false)
           msgs.
Proof.
  revert w. induction ps as [| p ps IH]; intros w.
  - exists []. cbn. rewrite !app_nil_r. destruct w. repeat split; auto.
  - cbn [for_each]. cbn [bind Monad_A].
    rewrite create_policy_run.
    match goal with |- context [for_each _ ps ?w1] =>
      destruct (IH w1) as (msgs & -> & Hl & Hall) end.
    cbn [calls lines].
    destruct (client (calls w) (Query p)) as [msg |].
    + destruct (Text.contains "already exists" (Text.lower msg)) eqn:Hc.
      * exists msgs. cbn [map]. rewrite <- app_assoc.
        repeat split; auto. cbn. lia.
      * exists (msg :: msgs). cbn [map]. rewrite <- !app_assoc.
        repeat split; auto. cbn. lia.
    + exists msgs. cbn [map]. rewrite <- app_assoc.
      repeat split; auto. cbn. lia.
Qed.

End With_client.

(** The world after a call was made. *)
Definition called (w : console) (c : call) : console :=
  {| calls := (calls w ++ [c])%list; lines := lines w |}.

(** The three tables accepted: the function returns after ten calls. *)
Lemma tables_accepted_run
    (client : list call -> call -> option string) (w : console) :
  client (calls w) (Query (CreateTable stocks_table)) = None ->
  client (calls w ++ [Query (CreateTable stocks_table)])%list
         (Query (CreateTable stock_prices_table)) = None ->
  client (calls w ++ [Query (CreateTable stocks_table);
                      Query (CreateTable stock_prices_table)])%list
         (Query (CreateTable stock_predictions_table)) = None ->
  exists msgs,
    _create_tables client w =
    (Done tt,
     {| calls := (calls w ++ map Query (tables ++ policies))%list;
        lines := (lines w ++ map PolicyWarning msgs)%list |}) /\
    (List.length msgs <= 7)%nat /\
    Forall (fun m => Text.contains "already exists" (Text.lower m) = false)
           msgs.
Proof.
  intros H1 H2 H3. unfold _create_tables, execute.
  cbn [catch Exc_A bind Monad_A calls lines]. rewrite H1.
  cbn [calls lines]. rewrite H2.
  cbn [calls lines]. rewrite <- app_assoc. cbn [app]. rewrite H3.
  match goal with |- context [for_each _ policies ?w1] =>
    destruct (policies_loop client policies w1) as (msgs & -> & Hl & Hall) end.
  exists msgs. cbn [calls lines]. rewrite <- !app_assoc.
  repeat split; auto.
Qed.

(** [_create_tables], policies.  When the three tables are accepted, no
    failure of a policy statement leaves the function: it returns, all
    ten statements have been sent in the order of the source, and all it
    has printed are warnings (at most seven), none of them for a failure
    that says the policy already exists. *)
Theorem policy_failures_stay_inside
    (client : list call -> call -> option string) (w : console) :
  client (calls w) (Query (CreateTable stocks_table)) = None ->
  client (calls w ++ [Query (CreateTable stocks_table)])%list
         (Query (CreateTable stock_prices_table)) = None ->
  client (calls w ++ [Query (CreateTable stocks_table);
                      Query (CreateTable stock_prices_table)])%list
         (Query (CreateTable stock_predictions_table)) = None ->
  exists msgs,
    _create_tables client w =
    (Done tt,
     {| calls := (calls w ++ map Query (tables ++ policies))%list;
        lines := (lines w ++ map PolicyWarning msgs)%list |}) /\
    (List.length msgs <= 7)%nat /\
    Forall (fun m => Text.contains "already exists" (Text.lower m) = false)
           msgs.
Proof.
  apply tables_accepted_run.
Qed.

Lemma policy_failures_stay_inside_example :
  exists msgs,
    _create_tables fresh_schema_client console0 =
    (Done tt,
     {| calls := (calls console0 ++ map Query (tables ++ policies))%list;
        lines := (lines console0 ++ map PolicyWarning msgs)%list |}) /\
    (List.length msgs <= 7)%nat /\
    Forall (fun m => Text.contains "already exists" (Text.lower m) = false)
           msgs.
Proof.
  apply (policy_failures_stay_inside fresh_schema_client console0);
    reflexivity.
Defined.

(** [_create_tables], tables.  When the function raises, it is because
    the client refused one of the three [create table] statements: the
    statements up to that one have been sent and no policy statement, the
    error has been printed, and the exception raised is the client's. *)
Theorem create_failure_is_raised_again
    (client : list call -> call -> option string) (w w' : console)
    (msg : string) :
  _create_tables client w = (Raised msg, w') ->
  exists (k : nat) (t : statement),
    nth_error tables k = Some t /\
    client (calls w ++ map Query (firstn k tables))%list (Query t) = Some msg /\
    calls w' = (calls w ++ map Query (firstn (S k) tables))%list /\
    lines w' = (lines w ++ [CreateError msg])%list.
Proof.
  unfold _create_tables, execute.
  cbn [catch Exc_A bind Monad_A calls lines].
  destruct (client (calls w) (Query (CreateTable stocks_table)))
    as [m1 |] eqn:H1.
  - cbn. intros H. injection H as <- <-.
    exists 0%nat, (CreateTable stocks_table). cbn.
    rewrite app_nil_r. repeat split; auto.
  - cbn [calls lines].
    destruct (client (calls w ++ [Query (CreateTable stocks_table)])%list
                (Query (CreateTable stock_prices_table))) as [m2 |] eqn:H2.
    + cbn. intros H. injection H as <- <-.
      exists 1%nat, (CreateTable stock_prices_table). cbn.
      rewrite <- app_assoc. repeat split; auto.
    + cbn [calls lines].
      destruct (client ((calls w ++ [Query (CreateTable stocks_table)]) ++
                        [Query (CreateTable stock_prices_table)])%list
                  (Query (CreateTable stock_predictions_table)))
        as [m3 |] eqn:H3.
      * cbn. intros H. injection H as <- <-.
        exists 2%nat, (CreateTable stock_predictions_table). cbn.
        rewrite <- !app_assoc in *. cbn in *. repeat split; auto.
      * match goal with |- context [for_each _ policies ?w1] =>
          destruct (policies_loop client policies w1) as (msgs & -> & _) end.
        discriminate.
Qed.

Lemma create_failure_is_raised_again_example :
  exists (k : nat) (t : statement),
    nth_error tables k = Some t /\
    read_only_client (calls console0 ++ map Query (firstn k tables))%list
      (Query t) = Some "permission denied" /\
    calls {| calls := [Query (CreateTable stocks_table)];
             lines := [CreateError "permission denied"] |}
      = (calls console0 ++ map Query (firstn (S k) tables))%list /\
    lines {| calls := [Query (CreateTable stocks_table)];
             lines := [CreateError "permission denied"] |}
      = (lines console0 ++ [CreateError "permission denied"])%list.
Proof.
  apply (create_failure_is_raised_again read_only_client console0).
  reflexivity.
Defined.

(** [_ensure_tables_exist], failures.  A probe that succeeds, or that
    fails with a text that does not say (in any letter case) that
    something does not exist, ends the function: it returns, only the
    probe has been sent and nothing is printed, so a client out of reach
    goes unnoticed.  The function raises only when it went on to
    [_create_tables] and that raised. *)
Theorem ensure_swallows_other_failures
    (client : list call -> call -> option string) (w : console) :
  (client (calls w) (Select "stocks" "*" 1) = None \/
   (exists m, client (calls w) (Select "stocks" "*" 1) = Some m /\
              Text.contains "does not exist" (Text.lower m) = false) ->
   _ensure_tables_exist client w = (Done tt, called w (Select "stocks" "*" 1)))
  /\
  (forall msg w',
      _ensure_tables_exist client w = (Raised msg, w') ->
      exists m,
        client (calls w) (Select "stocks" "*" 1) = Some m /\
        Text.contains "does not exist" (Text.lower m) = true /\
        _create_tables client (called w (Select "stocks" "*" 1))
          = (Raised msg, w')).
Proof.
  unfold _ensure_tables_exist, execute, called.
  cbn -[Text.contains Text.lower _create_tables].
  split.
  - intros [-> | (m & -> & Hc)]; [reflexivity |]. now rewrite Hc.
  - intros msg w'.
    destruct (client (calls w) (Select "stocks" "*" 1)) as [m |];
      [| discriminate].
    destruct (Text.contains "does not exist" (Text.lower m)) eqn:Hc;
      [| discriminate].
    intros H. exists m. now repeat split.
Qed.

Lemma ensure_swallows_other_failures_example :
  _ensure_tables_exist unreachable_client console0
    = (Done tt, called console0 (Select "stocks" "*" 1)) /\
  (exists m,
      read_only_client (calls console0) (Select "stocks" "*" 1) = Some m /\
      Text.contains "does not exist" (Text.lower m) = true /\
      _create_tables read_only_client (called console0 (Select "stocks" "*" 1))
      = (Raised "permission denied",
         {| calls := [Select "stocks" "*" 1; Query (CreateTable stocks_table)];
            lines := [CreateError "permission denied"] |})).
Proof.
  split.
  - apply (proj1 (ensure_swallows_other_failures unreachable_client console0)).
    right. exists "connection refused". split; reflexivity.
  - apply (proj2 (ensure_swallows_other_failures read_only_client console0)).
    reflexivity.
Defined.

(** [_ensure_tables_exist], provisioning.  When the probe fails with a
    text that says, in any letter case, that the table does not exist,
    and the client accepts the three tables, the function returns after
    eleven calls: the probe, the three tables and the seven policy
    statements, in this order. *)
Theorem ensure_provisions_missing_schema
    (client : list call -> call -> option string) (w : console) (m : string) :
  client (calls w) (Select "stocks" "*" 1) = Some m ->
  Text.contains "does not exist" (Text.lower m) = true ->
  client (calls w ++ [Select "stocks" "*" 1])%list
         (Query (CreateTable stocks_table)) = None ->
  client (calls w ++ [Select "stocks" "*" 1;
                      Query (CreateTable stocks_table)])%list
         (Query (CreateTable stock_prices_table)) = None ->
  client (calls w ++ [Select "stocks" "*" 1;
                      Query (CreateTable stocks_table);
                      Query (CreateTable stock_prices_table)])%list
         (Query (CreateTable stock_predictions_table)) = None ->
  fst (_ensure_tables_exist client w) = Done tt /\
  calls (snd (_ensure_tables_exist client w)) =
    (calls w ++ Select "stocks" "*" 1 :: map Query (tables ++ policies))%list /\
  List.length (calls (snd (_ensure_tables_exist client w)))
    = (List.length (calls w) + 11)%nat.
Proof.
  intros Hp Hc H1 H2 H3.
  unfold _ensure_tables_exist, execute.
  cbn [catch Exc_A]. rewrite Hp, Hc.
  match goal with |- context [_create_tables client ?w1] =>
    destruct (tables_accepted_run client w1) as (msgs & -> & _)
  end.
  - cbn [calls]. exact H1.
  - cbn [calls]. rewrite <- app_assoc. exact H2.
  - cbn [calls]. rewrite <- app_assoc. exact H3.
  - cbn [fst snd calls]. rewrite <- app_assoc. cbn [app].
    repeat split. rewrite length_app. cbn. lia.
Qed.

Lemma ensure_provisions_missing_schema_example :
  fst (_ensure_tables_exist fresh_schema_client console0) = Done tt /\
  calls (snd (_ensure_tables_exist fresh_schema_client console0)) =
    (calls console0 ++
     Select "stocks" "*" 1 :: map Query (tables ++ policies))%list /\
  List.length (calls (snd (_ensure_tables_exist fresh_schema_client console0)))
    = (List.length (calls console0) + 11)%nat.
Proof.
  apply (ensure_provisions_missing_schema fresh_schema_client console0
           "relation public.stocks Does Not Exist");
    reflexivity.
Defined.

End AdminFacts.

(* ===================================================================== *)
(** ** The rows and the schema *)
(* ===================================================================== *)

Lemma mapM_Forall {A : Type} (f : A -> result value) (P : value -> Prop)
    (xs : list A) (rows : list value) :
  (forall x y, f x = Ok y -> P y) ->
  mapM f xs = Ok rows -> Forall P rows.
Proof.
  intros Hf. revert rows. induction xs as [| x xs IH]; intros rows; cbn.
  - intros H. injection H as <-. constructor.
  - destruct (f x) as [y | e] eqn:Hy; [| discriminate].
    destruct (mapM f xs) as [ys | e]; [| discriminate].
    intros H. injection H as <-. constructor; eauto.
Qed.

Ltac open_result H :=
  repeat match type of H with
         | context [match ?c with Ok _ => _ | Raise _ => _ end] =>
             destruct c eqn:?; [| discriminate H];
             cbn -[Py.subscript Py.get float_ int_ bound_at bound_price
                   Py.truthy] in H
         end.

Lemma bound_price_typed (E : env) (b y : value) :
  bound_price E b = Ok y -> float_or_none y.
Proof.
  unfold bound_price. destruct (Py.truthy b).
  - cbn -[Py.subscript float_].
    destruct (Py.subscript b (VStr "price")) as [x |]; [| discriminate].
    intros H. apply float_value in H as (f & ->). right. now exists f.
  - intros H. injection H as <-. now left.
Qed.

Lemma price_row_typed (E : env) (stock_data price t y : value) :
  Py.subscript stock_data (VStr "ticker") = Ok t ->
  price_row E stock_data price = Ok y -> is_price_row t y.
Proof.
  intros Hk H. unfold price_row in H. rewrite Hk in H.
  cbn -[Py.subscript float_] in H. open_result H.
  injection H as <-. numbers. do 2 eexists. reflexivity.
Qed.

Lemma prediction_row_typed (E : env) (stock_data t y : value) (i : Z) :
  Py.subscript stock_data (VStr "ticker") = Ok t ->
  prediction_row E stock_data i = Ok y -> is_prediction_row t y.
Proof.
  intros Hk H. unfold prediction_row in H.
  cbn -[Py.subscript float_ bound_at bound_price] in H.
  open_result H. injection H as <-.
  repeat match goal with
         | Hb : bound_price _ _ = Ok _ |- _ => apply bound_price_typed in Hb
         end.
  numbers.
  match goal with
  | Ht : Py.subscript stock_data (VStr "ticker") = Ok ?x |- _ =>
      assert (x = t) as -> by congruence
  end.
  do 4 eexists. split; [reflexivity |]. now split.
Qed.

(** The rows are typed.  Every row built for [stock_prices] holds the
    record's ticker, the date of the point and its price as a float;
    every row built for [stock_predictions] holds moreover the two
    bounds, each a float or [None]. *)
Theorem series_rows_are_typed (E : env) (stock_data t : value) :
  Py.subscript stock_data (VStr "ticker") = Ok t ->
  (forall rows, price_rows E stock_data = Ok rows ->
                Forall (is_price_row t) rows) /\
  (forall rows, prediction_rows E stock_data = Ok rows ->
                Forall (is_prediction_row t) rows).
Proof.
  intros Hk. split; intros rows H.
  - unfold price_rows in H. cbn -[Py.subscript Py.iter mapM price_row] in H.
    destruct (Py.subscript stock_data (VStr "historical_data"));
      [| discriminate].
    destruct (Py.iter a); [| discriminate].
    eapply mapM_Forall; [| exact H].
    intros x y. now apply price_row_typed.
  - unfold prediction_rows in H.
    cbn -[Py.subscript Py.len mapM prediction_row Py.range] in H.
    repeat match type of H with
           | context [match ?c with Ok _ => _ | Raise _ => _ end] =>
               destruct c; [| discriminate H]
           end.
    eapply mapM_Forall; [| exact H].
    intros x y. now apply prediction_row_typed.
Qed.

Lemma series_rows_are_typed_example :
  Forall (is_price_row (VStr "AAPL")) Fixtures.complete_price_rows /\
  Forall (is_prediction_row (VStr "AAPL")) Fixtures.complete_prediction_rows.
Proof.
  destruct (series_rows_are_typed (Fixtures.env_with Sql.service)
              Fixtures.complete_record (VStr "AAPL") eq_refl) as [H1 H2].
  split; [apply H1 | apply H2]; reflexivity.
Defined.

Ltac keys_are_columns :=
  intros k Hk; cbn in Hk |- *;
  repeat (destruct Hk as [<- | Hk]; [tauto |]);
  contradiction.

Lemma price_row_fits (E : env) (stock_data price y : value) :
  price_row E stock_data price = Ok y -> fits Admin.stock_prices_table y.
Proof.
  intros H. unfold price_row in H. cbn -[Py.subscript float_] in H.
  open_result H. injection H as <-.
  eexists. split; [reflexivity |]. keys_are_columns.
Qed.

Lemma prediction_row_fits (E : env) (stock_data y : value) (i : Z) :
  prediction_row E stock_data i = Ok y ->
  fits Admin.stock_predictions_table y.
Proof.
  intros H. unfold prediction_row in H.
  cbn -[Py.subscript float_ bound_at bound_price] in H.
  open_result H. injection H as <-.
  eexists. split; [reflexivity |]. keys_are_columns.
Qed.

(** The rows fit the schema.  Every key of the row built for [stocks],
    and of every row built for [stock_prices] and [stock_predictions], is
    a column of that table as [_create_tables] declares it; ['ticker'],
    the column the two series deletes filter on, is a column of their
    tables, but ['id'], the column the delete of [stocks] filters on, is
    no column of [stocks]. *)
Theorem rows_fit_the_schema (E : env) (stock_data : value) :
  (forall w stock w',
      build_stock E stock_data w = (Ok stock, w') ->
      fits Admin.stocks_table stock) /\
  (forall rows, price_rows E stock_data = Ok rows ->
                Forall (fits Admin.stock_prices_table) rows) /\
  (forall rows, prediction_rows E stock_data = Ok rows ->
                Forall (fits Admin.stock_predictions_table) rows) /\
  In "ticker" (Admin.column_names Admin.stock_prices_table) /\
  In "ticker" (Admin.column_names Admin.stock_predictions_table) /\
  ~ In "id" (Admin.column_names Admin.stocks_table).
Proof.
  split; [| split; [| split; [| split; [| split]]]].
  - intros w stock w' H. unfold build_stock in H.
    cbn -[prepare_stock] in H.
    destruct (prepare_stock E stock_data) as [fields | e] eqn:Hp;
      [| discriminate].
    cbn in H. injection H as <- _.
    apply prepare_stock_keys in Hp.
    eexists. split; [reflexivity |].
    rewrite map_app, Hp. keys_are_columns.
  - intros rows H. unfold price_rows in H.
    cbn -[Py.subscript Py.iter mapM price_row] in H.
    destruct (Py.subscript stock_data (VStr "historical_data"));
      [| discriminate].
    destruct (Py.iter a); [| discriminate].
    eapply mapM_Forall; [| exact H].
    intros x y. apply price_row_fits.
  - intros rows H. unfold prediction_rows in H.
    cbn -[Py.subscript Py.len mapM prediction_row Py.range] in H.
    repeat match type of H with
           | context [match ?c with Ok _ => _ | Raise _ => _ end] =>
               destruct c; [| discriminate H]
           end.
    eapply mapM_Forall; [| exact H].
    intros x y. apply prediction_row_fits.
  - cbn. tauto.
  - cbn. tauto.
  - cbn. intros H.
    repeat (destruct H as [H | H]; [discriminate |]). exact H.
Qed.

Lemma rows_fit_the_schema_example :
  fits Admin.stocks_table
    (VDict [("ticker", VStr "AAPL"); ("name", VStr "Apple");
            ("sentiment", VDict [("score", VFloat zero);
                                 ("category", VStr "Neutral");
                                 ("investment_score", VFloat zero)]);
            ("news_count", VInt 0); ("rank", VInt 0);
            ("investment_score", VFloat zero);
            ("last_updated", VStr "2024-03-01T09:30:00")]) /\
  Forall (fits Admin.stock_prices_table) Fixtures.complete_price_rows /\
  Forall (fits Admin.stock_predictions_table)
         Fixtures.complete_prediction_rows.
Proof.
  destruct (rows_fit_the_schema (Fixtures.env_with Sql.service)
              Fixtures.bare_record) as (H1 & _).
  destruct (rows_fit_the_schema (Fixtures.env_with Sql.service)
              Fixtures.complete_record) as (_ & H2 & H3 & _).
  split; [| split].
  - apply (H1 (Fixtures.world_of Fixtures.empty_db) _
              {| store := Fixtures.empty_db; issued := []; stdout := [];
                 ticks := 1 |}).
    reflexivity.
  - apply H2. reflexivity.
  - apply H3. reflexivity.
Defined.

(** The row of [stocks] is typed.  When the mapper accepts a record, the
    scores are floats, the count and the rank are integers, and the
    investment score stored inside [sentiment] is the one stored beside
    it. *)
Theorem stock_fields_are_typed (E : env) (stock_data : value) (fields : dict) :
  prepare_stock E stock_data = Ok fields ->
  exists ticker name score category inv news rank,
    fields =
      [("ticker", ticker); ("name", name);
       ("sentiment", VDict [("score", VFloat score);
                            ("category", category);
                            ("investment_score", VFloat inv)]);
       ("news_count", VInt news);
       ("rank", VInt rank);
       ("investment_score", VFloat inv)].
Proof.
  intros H. unfold prepare_stock in H.
  cbn -[Py.subscript Py.get float_ int_] in H.
  open_result H. injection H as <-. numbers.
  do 7 eexists. reflexivity.
Qed.

Lemma stock_fields_are_typed_example :
  exists ticker name score category inv news rank,
    [("ticker", VStr "AAPL"); ("name", VStr "Apple");
     ("sentiment", VDict [("score", VFloat (Py.float_of_Z 1));
                          ("category", VStr "Positive");
                          ("investment_score", VFloat (Py.float_of_Z 7))]);
     ("news_count", VInt 3);
     ("rank", VInt 1);
     ("investment_score", VFloat (Py.float_of_Z 7))] =
      [("ticker", ticker); ("name", name);
       ("sentiment", VDict [("score", VFloat score);
                            ("category", category);
                            ("investment_score", VFloat inv)]);
       ("news_count", VInt news);
       ("rank", VInt rank);
       ("investment_score", VFloat inv)].
Proof.
  apply (stock_fields_are_typed (Fixtures.env_with Sql.service)
           Fixtures.complete_record).
  reflexivity.
Defined.

(** A field that is present with the value [None] is not replaced by its
    default: [float(None)] or [int(None)] raises, and the mapper rejects
    the record. *)
Theorem none_is_not_defaulted (E : env) (d : dict) (k : string) :
  In k ["sentiment_score"; "investment_score"; "news_count"; "rank"] ->
  Py.lookup k d = Some VNone ->
  exists e, prepare_stock E (VDict d) = Raise e.
Proof.
  intros Hin Hk.
  destruct (prepare_stock E (VDict d)) as [fields | e] eqn:Hp;
    [| now exists e].
  exfalso. unfold prepare_stock in Hp.
  cbn -[Py.lookup float_ int_] in Hp.
  repeat (destruct Hin as [<- | Hin]; [rewrite Hk in Hp |]);
    try contradiction;
    repeat match type of Hp with
           | context [match Py.lookup ?key d with _ => _ end] =>
               destruct (Py.lookup key d)
           end;
    cbn in Hp;
    repeat match type of Hp with
           | context [match ?c with Ok _ => _ | Raise _ => _ end] =>
               destruct c; try discriminate Hp; cbn in Hp
           end;
    discriminate Hp.
Qed.

Lemma none_is_not_defaulted_example :
  exists e,
    prepare_stock (Fixtures.env_with Sql.service)
      (VDict [("ticker", VStr "AAPL"); ("name", VStr "Apple");
              ("news_count", VNone)]) = Raise e.
Proof.
  apply (none_is_not_defaulted (Fixtures.env_with Sql.service)
           [("ticker", VStr "AAPL"); ("name", VStr "Apple");
            ("news_count", VNone)] "news_count").
  - right. right. left. reflexivity.
  - reflexivity.
Defined.

(** The bounds are optional.  When the prediction has no upper bounds
    (the key is absent, or what it holds counts as false, as an empty
    list does), every row that is built carries [None] as its
    [upper_bound]; and so for the lower bounds. *)
Theorem absent_bounds_give_none (E : env) (stock_data p u y : value)
    (bound : string) (i : Z) :
  bound = "upper_bound" \/ bound = "lower_bound" ->
  Py.subscript stock_data (VStr "prediction") = Ok p ->
  Py.get p bound VNone = Ok u ->
  Py.truthy u = false ->
  prediction_row E stock_data i = Ok y ->
  exists d, y = VDict d /\ Py.lookup bound d = Some VNone.
Proof.
  intros Hb Hp Hu Hf H.
  assert (Hn : bound_at stock_data bound i = Ok VNone).
  { unfold bound_at. rewrite Hp. cbn -[Py.get Py.truthy Py.subscript].
    now rewrite Hu, Hf. }
  unfold prediction_row in H.
  cbn -[Py.subscript float_ bound_at] in H.
  destruct Hb as [-> | ->]; rewrite Hn in H;
    cbn -[Py.subscript float_ bound_at] in H;
    repeat match type of H with
           | context [match ?c with Ok _ => _ | Raise _ => _ end] =>
               destruct c; [| discriminate H];
               cbn -[Py.subscript float_ bound_at] in H
           end;
    injection H as <-; eexists; (split; [reflexivity |]); reflexivity.
Qed.

Lemma absent_bounds_give_none_example :
  exists d,
    VDict [("ticker", VStr "AAPL"); ("date", VStr "2024-02-01");
           ("price", VFloat (Py.float_of_Z 12));
           ("upper_bound", VFloat (Py.float_of_Z 14));
           ("lower_bound", VNone)] = VDict d /\
    Py.lookup "lower_bound" d = Some VNone.
Proof.
  apply (absent_bounds_give_none (Fixtures.env_with Sql.service)
           record_with_short_bounds short_bounds VNone _ "lower_bound" 0).
  - right. reflexivity.
  - reflexivity.
  - reflexivity.
  - reflexivity.
  - reflexivity.
Defined.
